(* Shallow embedding of the ETH-Sim price-feed simulators (sim_core headers,
   src/dex_sim/main.cpp and src/oracle_sim/main.cpp).

   Doubles are Rocq's primitive IEEE-754 binary64 floats.  The parts of the
   C++ standard library whose results are implementation-defined or outside
   the repository (std::mt19937_64, std::hash<std::string>,
   std::normal_distribution, std::uniform_*_distribution, std::exp, and the
   out-of-range behaviour of a double -> uint32_t cast) are the fields of a
   [Platform] record; every model function is parametric in it. *)

From Stdlib Require Import ZArith Bool List String Floats Lia Sorting.Sorted.
From Stdlib Require Uint63.
Import ListNotations.
Set Warnings "-inexact-float".
Open Scope Z_scope.
Open Scope string_scope.
Open Scope Z_scope.

(** * Fixed-width integers *)

Definition wrap64 (z : Z) : Z := z mod 2 ^ 64.
Definition wrap32 (z : Z) : Z := z mod 2 ^ 32.

(** [static_cast<double>(uint64_t)]: round to nearest, ties to even.  Below
    2^63 the primitive conversion is exact rounding; above, the value is
    rounded to 53 significant bits by hand and scaled back (exactly). *)
Definition u64_to_double (n : Z) : float :=
  if n <? 2 ^ 63 then of_uint63 (Uint63.of_Z n)
  else
    let q := n / 2 ^ 11 in
    let r := n mod 2 ^ 11 in
    let q' := if (2 ^ 10 <? r) || ((r =? 2 ^ 10) && Z.odd q) then q + 1 else q in
    (of_uint63 (Uint63.of_Z q') * 2048)%float.

(** Truncation of a double towards zero, [None] for NaN and infinities. *)
Definition trunc_Z (x : float) : option Z :=
  match Prim2SF x with
  | S754_zero _ => Some 0
  | S754_finite s m e =>
      let a := if 0 <=? e then Z.shiftl (Zpos m) e else Z.shiftr (Zpos m) (- e) in
      Some (if s then - a else a)
  | _ => None
  end.

(** [std::max(a, b)] is [(a < b) ? b : a]. *)
Definition std_max (a b : float) : float := if (a <? b)%float then b else a.

(** * The C++ standard library the program runs on *)

Record Platform := {
  Mt : Type;                                  (* std::mt19937_64 *)
  mt_seed : Z -> Mt;                          (* std::mt19937_64(uint64_t seed) *)
  hash_string : string -> Z;                  (* std::hash<std::string> (a size_t) *)
  Normal : Type;                              (* std::normal_distribution<double> state *)
  normal_init : Normal;                       (* normal_(0.0, 1.0) *)
  normal_draw : Normal -> Mt -> float * Normal * Mt;   (* normal_(rng_) *)
  uniform_real01 : Mt -> float * Mt;          (* uniform_real_distribution<double>(0,1)(rng) *)
  uniform_int : Z -> Z -> Mt -> Z * Mt;       (* uniform_int_distribution<uint64_t>(a,b)(rng) *)
  std_exp : float -> float;                   (* std::exp *)
  cast_u32_out_of_range : float -> Z          (* static_cast<uint32_t>(d), d out of range *)
}.

(** * types.hpp *)

Inductive SourceKind := Dex | Chainlink.

Record PriceMsg := mkPriceMsg {
  ts : Z;
  pair : string;
  price : float;
  source : SourceKind;
  src_seq : Z;
  delay_ms : Z;
  stale : bool
}.

Section Core.
Variable P : Platform.

(** * rng.hpp *)

Definition create_labeled_rng (seed : Z) (label : string) : Mt P :=
  let label_hash := hash_string P label in
  let final_seed := Z.lxor seed label_hash in
  mt_seed P final_seed.

Definition happens (rng : Mt P) (probability : float) : bool * Mt P :=
  if (probability <=? 0)%float then (false, rng)
  else if (1 <=? probability)%float then (true, rng)
  else let '(u, rng') := uniform_real01 P rng in ((u <? probability)%float, rng').

Definition sample_range (rng : Mt P) (min max : Z) : Z * Mt P :=
  if max <=? min then (min, rng)
  else uniform_int P min max rng.

(** * gbm_engine.hpp *)

Record GbmPriceEngine := mkGbm {
  pair_ : string;
  price_ : float;
  drift_ : float;
  volatility_ : float;
  tick_interval_ms_ : Z;
  rng_ : Mt P;
  normal_ : Normal P
}.

Definition gbm_create (pair : string) (initial_price drift volatility : float)
    (tick_interval_ms : Z) (rng : Mt P) : GbmPriceEngine :=
  mkGbm pair initial_price drift volatility tick_interval_ms rng (normal_init P).

Definition next_tick (e : GbmPriceEngine) (ts seq : Z) (source : SourceKind)
    (delay_ms : Z) (stale : bool) : PriceMsg * GbmPriceEngine :=
  let dt := (u64_to_double (tick_interval_ms_ e) / 1000 / 86400 / 365.25)%float in
  let '(z, normal', rng') := normal_draw P (normal_ e) (rng_ e) in
  let dw := (z * sqrt dt)%float in
  let drift_component := (drift_ e * dt)%float in
  let diffusion_component := (volatility_ e * dw)%float in
  let relative_change := (drift_component + diffusion_component)%float in
  let price1 := (price_ e * std_exp P relative_change)%float in
  let price2 := std_max price1 0.01 in
  (mkPriceMsg ts (pair_ e) price2 source seq delay_ms stale,
   mkGbm (pair_ e) price2 (drift_ e) (volatility_ e) (tick_interval_ms_ e) rng' normal').

Definition current_price (e : GbmPriceEngine) : float := price_ e.

End Core.

Arguments happens {P}.
Arguments sample_range {P}.
Arguments create_labeled_rng {P}.
Arguments next_tick {P}.
Arguments gbm_create {P}.
Arguments mkGbm {P}.
Arguments pair_ {P}. Arguments price_ {P}. Arguments drift_ {P}.
Arguments volatility_ {P}. Arguments tick_interval_ms_ {P}.
Arguments rng_ {P}. Arguments normal_ {P}.

(** * config.hpp and metrics.hpp *)

Record Range := mkRange { min : Z; max : Z }.

(** The fields of [DexConfig] the DEX ticker reads. *)
Record DexConfig := mkDexConfig {
  dex_tick_ms : Range;
  dex_latency_ms : Range;
  dex_p_drop : float;
  dex_p_dup : float;
  dex_burst_mode : bool;
  dex_burst_on_ms : Z;
  dex_burst_off_ms : Z;
  dex_stale_after_ms : Z
}.

(** The fields of [OracleConfig] the Oracle ticker reads. *)
Record OracleConfig := mkOracleConfig {
  oracle_tick_ms : Range;
  oracle_deviation_bps : Z;
  oracle_heartbeat_ms : Z;
  oracle_ws_jitter_ms : Range;
  oracle_p_drop : float;
  oracle_p_dup : float;
  oracle_stale_after_ms : Z
}.

(** The four std::atomic<uint64_t> counters; [x++] wraps at 2^64. *)
Record Metrics := mkMetrics {
  price_ticks_generated : Z;
  ws_frames_sent : Z;
  ws_frames_dropped : Z;
  ws_frames_duplicated : Z
}.

Definition metrics_reset : Metrics := mkMetrics 0 0 0 0.
Definition incr (x : Z) : Z := wrap64 (x + 1).

Definition inc_generated (m : Metrics) : Metrics :=
  mkMetrics (incr (price_ticks_generated m)) (ws_frames_sent m)
            (ws_frames_dropped m) (ws_frames_duplicated m).
Definition inc_sent (m : Metrics) : Metrics :=
  mkMetrics (price_ticks_generated m) (incr (ws_frames_sent m))
            (ws_frames_dropped m) (ws_frames_duplicated m).
Definition inc_dropped (m : Metrics) : Metrics :=
  mkMetrics (price_ticks_generated m) (ws_frames_sent m)
            (incr (ws_frames_dropped m)) (ws_frames_duplicated m).
Definition inc_duplicated (m : Metrics) : Metrics :=
  mkMetrics (price_ticks_generated m) (ws_frames_sent m)
            (ws_frames_dropped m) (incr (ws_frames_duplicated m)).

(** * Clocks

    One iteration of a ticker reads [steady_clock::now()] (nanoseconds) and
    [current_time_ms()] (wall clock) after its timer fires; the model takes
    the two readings as the iteration's input. *)

Record Clock := mkClock { now : Z; wall_ms : Z }.

(** [duration_cast<milliseconds>(a - b).count()]: truncation towards zero. *)
Definition elapsed_ms (a b : Z) : Z := Z.quot (a - b) 1000000.

(** The [while (true)] loop of a ticker, driven by a list of clock readings:
    the final state and the frames broadcast by each iteration. *)
Fixpoint ticker_loop {S : Type} (step : S -> Clock -> S * list PriceMsg) (st : S)
    (clocks : list Clock) : S * list (list PriceMsg) :=
  match clocks with
  | [] => (st, [])
  | clk :: rest =>
      let '(st1, sent) := step st clk in
      let '(st2, groups) := ticker_loop step st1 rest in
      (st2, sent :: groups)
  end.

Section Tickers.
Variable P : Platform.

(** * src/dex_sim/main.cpp: DexState and run_price_ticker *)

Record DexTicker := mkDexTicker {
  dx_engine : GbmPriceEngine P;        (* DexState::price_engine_ *)
  dx_rng : Mt P;                       (* rng, label "DEX_TICKER" *)
  dx_seq : Z;                          (* seq *)
  dx_last_tick_time : Z;               (* last_tick_time *)
  dx_last_price : option PriceMsg;     (* DexState::last_price_ *)
  dx_metrics : Metrics                 (* get_metrics() *)
}.

(** Lines 100-126: delays, staleness and the engine call. *)
Definition dex_generate (config : DexConfig) (st : DexTicker) (clk : Clock)
    : PriceMsg * GbmPriceEngine P * Mt P :=
  let '(tick_ms, r1) := sample_range (dx_rng st) (min (dex_tick_ms config)) (max (dex_tick_ms config)) in
  let '(_tick_ms, r2) :=
    if dex_burst_mode config then
      let '(burst_on, r) := happens r1 0.5 in
      ((if burst_on then Z.min tick_ms (dex_burst_on_ms config)
        else Z.max tick_ms (dex_burst_off_ms config)), r)
    else (tick_ms, r1) in
  let '(d, r3) := sample_range r2 (min (dex_latency_ms config)) (max (dex_latency_ms config)) in
  let delay := wrap32 d in
  let stale := dex_stale_after_ms config <? wrap64 (elapsed_ms (now clk) (dx_last_tick_time st)) in
  let '(msg, engine') := next_tick (dx_engine st) (wall_ms clk) (dx_seq st) Dex delay stale in
  (msg, engine', r3).

(** One iteration of the loop: the new state and the frames broadcast, in order. *)
Definition dex_step (config : DexConfig) (st : DexTicker) (clk : Clock)
    : DexTicker * list PriceMsg :=
  let '(msg, engine', r3) := dex_generate config st clk in
  let m1 := inc_generated (dx_metrics st) in
  let '(drop, r4) := happens r3 (dex_p_drop config) in
  if drop then
    (mkDexTicker engine' r4 (incr (dx_seq st)) (now clk) (dx_last_price st) (inc_dropped m1), [])
  else
    let m2 := inc_sent m1 in
    let '(dup, r5) := happens r4 (dex_p_dup config) in
    if dup then
      (mkDexTicker engine' r5 (incr (dx_seq st)) (now clk) (Some msg) (inc_duplicated m2), [msg; msg])
    else
      (mkDexTicker engine' r5 (incr (dx_seq st)) (now clk) (Some msg) m2, [msg]).

Definition dex_run (config : DexConfig) (st : DexTicker) (clocks : list Clock)
    : DexTicker * list (list PriceMsg) :=
  ticker_loop (dex_step config) st clocks.

(** * src/oracle_sim/main.cpp: OracleState and run_price_ticker *)

Record OracleTicker := mkOracleTicker {
  or_engine : GbmPriceEngine P;                (* OracleState::price_engine_ *)
  or_rng : Mt P;                               (* rng, label "ORACLE_TICKER" *)
  or_seq : Z;                                  (* seq *)
  or_last_tick_time : Z;                       (* last_tick_time *)
  or_last_price : option PriceMsg;             (* last_price_ *)
  or_last_published_price : option float;      (* last_published_price_ *)
  or_last_publish_time : option Z;             (* last_publish_time_ *)
  or_metrics : Metrics                         (* get_metrics() *)
}.

(** [static_cast<uint32_t>(double)]: truncation when the result fits. *)
Definition cast_u32 (x : float) : Z :=
  match trunc_Z x with
  | Some z => if (0 <=? z) && (z <? 2 ^ 32) then z else cast_u32_out_of_range P x
  | None => cast_u32_out_of_range P x
  end.

(** OracleState::should_publish *)
Definition should_publish (config : OracleConfig) (last_published_price : option float)
    (last_publish_time : option Z) (current_price : float) (now : Z) : bool :=
  match last_published_price with
  | None => true
  | Some last_price =>
      let deviation := abs ((current_price - last_price) / last_price)%float in
      let deviation_bps := cast_u32 (deviation * 10000)%float in
      if oracle_deviation_bps config <=? deviation_bps then true
      else
        match last_publish_time with
        | Some t =>
            if oracle_heartbeat_ms config <=? wrap64 (elapsed_ms now t) then true else false
        | None => false
        end
  end.

(** Lines 155-172: delays, staleness and the engine call. *)
Definition oracle_generate (config : OracleConfig) (st : OracleTicker) (clk : Clock)
    : PriceMsg * GbmPriceEngine P * Mt P :=
  let '(_tick_ms, r1) := sample_range (or_rng st) (min (oracle_tick_ms config)) (max (oracle_tick_ms config)) in
  let '(d, r2) := sample_range r1 (min (oracle_ws_jitter_ms config)) (max (oracle_ws_jitter_ms config)) in
  let delay := wrap32 d in
  let stale := oracle_stale_after_ms config <? wrap64 (elapsed_ms (now clk) (or_last_tick_time st)) in
  let '(msg, engine') := next_tick (or_engine st) (wall_ms clk) (or_seq st) Chainlink delay stale in
  (msg, engine', r2).

(** Lines 173-213: the gate, then drop, broadcast and duplicate. *)
Definition oracle_step (config : OracleConfig) (st : OracleTicker) (clk : Clock)
    : OracleTicker * list PriceMsg :=
  let '(msg, engine', r2) := oracle_generate config st clk in
  let should_pub := should_publish config (or_last_published_price st)
                      (or_last_publish_time st) (price msg) (now clk) in
  if negb should_pub then
    (mkOracleTicker engine' r2 (or_seq st) (now clk) (or_last_price st)
       (or_last_published_price st) (or_last_publish_time st) (or_metrics st), [])
  else
    let m1 := inc_generated (or_metrics st) in
    let '(drop, r3) := happens r2 (oracle_p_drop config) in
    if drop then
      (mkOracleTicker engine' r3 (incr (or_seq st)) (now clk) (or_last_price st)
         (Some (price msg)) (Some (now clk)) (inc_dropped m1), [])
    else
      let m2 := inc_sent m1 in
      let '(dup, r4) := happens r3 (oracle_p_dup config) in
      if dup then
        (mkOracleTicker engine' r4 (incr (or_seq st)) (now clk) (Some msg)
           (Some (price msg)) (Some (now clk)) (inc_duplicated m2), [msg; msg])
      else
        (mkOracleTicker engine' r4 (incr (or_seq st)) (now clk) (Some msg)
           (Some (price msg)) (Some (now clk)) m2, [msg]).

Definition oracle_run (config : OracleConfig) (st : OracleTicker) (clocks : list Clock)
    : OracleTicker * list (list PriceMsg) :=
  ticker_loop (oracle_step config) st clocks.

End Tickers.

Arguments mkDexTicker {P}. Arguments dx_engine {P}. Arguments dx_rng {P}.
Arguments dx_seq {P}. Arguments dx_last_tick_time {P}. Arguments dx_last_price {P}.
Arguments dx_metrics {P}.
Arguments dex_generate {P}. Arguments dex_step {P}. Arguments dex_run {P}.
Arguments mkOracleTicker {P}. Arguments or_engine {P}. Arguments or_rng {P}.
Arguments or_seq {P}. Arguments or_last_tick_time {P}. Arguments or_last_price {P}.
Arguments or_last_published_price {P}. Arguments or_last_publish_time {P}.
Arguments or_metrics {P}.
Arguments oracle_generate {P}. Arguments oracle_step {P}. Arguments oracle_run {P}.

(** * handle_http_request (both servers)

    A boost::beast response: status, the header fields set by the handler,
    keep-alive and body.  [res.set] replaces a field already present. *)

Inductive Field := Server | ContentType | AccessControlAllowOrigin.

Definition field_eqb (a b : Field) : bool :=
  match a, b with
  | Server, Server | ContentType, ContentType
  | AccessControlAllowOrigin, AccessControlAllowOrigin => true
  | _, _ => false
  end.

Record Request := mkRequest { target : string; version : Z; req_keep_alive : bool }.

Record Response := mkResponse {
  status : Z;
  res_version : Z;
  fields : list (Field * string);
  keep_alive : bool;
  body : string
}.

Definition res_set (f : Field) (v : string) (res : Response) : Response :=
  mkResponse (status res) (res_version res)
    (filter (fun fv => negb (field_eqb (fst fv) f)) (fields res) ++ [(f, v)])
    (keep_alive res) (body res).

Definition field_value (res : Response) (f : Field) : option string :=
  match find (fun fv => field_eqb (fst fv) f) (fields res) with
  | Some (_, v) => Some v
  | None => None
  end.

Definition status_ok : Z := 200.
Definition status_not_found : Z := 404.

Definition not_found (server : string) (req : Request) (t : string) : Response :=
  let res := mkResponse status_not_found (version req) [] false EmptyString in
  let res := res_set Server server res in
  let res := res_set ContentType "text/plain" res in
  mkResponse (status res) (res_version res) (fields res) (req_keep_alive req)
    ("Not found: " ++ t).

Definition ok_with (server content_type : string) (req : Request) (b : string) : Response :=
  let res := mkResponse status_ok (version req) [] false EmptyString in
  let res := res_set Server server res in
  let res := res_set ContentType content_type res in
  let res := res_set AccessControlAllowOrigin "*" res in
  mkResponse (status res) (res_version res) (fields res) (req_keep_alive req) b.

(** The Oracle server.  [metrics_text] is [get_metrics().to_prometheus()] and
    [snapshot_json] the dumped snapshot, both read when the request arrives. *)
Definition oracle_handle_http_request (metrics_text snapshot_json : string)
    (req : Request) : Response :=
  let ok_json := ok_with "oracle-sim" "application/json" req in
  let ok_text := ok_with "oracle-sim" "text/plain" req in
  if String.eqb (target req) "/healthz" then ok_text "OK"
  else if String.eqb (target req) "/metrics" then ok_text metrics_text
  else if String.eqb (target req) "/oracle/snapshot" then ok_json snapshot_json
  else not_found "oracle-sim" req (target req).

(** The DEX server; [load_static_file] reads static/<name>. *)
Definition dex_handle_http_request (metrics_text snapshot_json : string)
    (load_static_file : string -> option string) (req : Request) : Response :=
  let ok_json := ok_with "dex-sim" "application/json" req in
  let ok_text := ok_with "dex-sim" "text/plain" req in
  let ok_html := ok_with "dex-sim" "text/html" req in
  let t := target req in
  if String.eqb t "/healthz" then ok_text "OK"
  else if String.eqb t "/metrics" then ok_text metrics_text
  else if String.eqb t "/prices/snapshot" then ok_json snapshot_json
  else
    let static_page :=
      if String.eqb t "/" || String.eqb t "/index.html" then load_static_file "index.html"
      else None in
    match static_page with
    | Some content => ok_html content
    | None =>
        match (if String.eqb t "/dual.html" then load_static_file "dual.html" else None) with
        | Some content => ok_html content
        | None =>
            match (if String.eqb t "/debug.html" then load_static_file "debug.html" else None) with
            | Some content => ok_html content
            | None => not_found "dex-sim" req t
            end
        end
    end.

(** * Exceptions

    The exceptions thrown by the library calls modelled below; [Undefined]
    marks a conversion whose behaviour C++ leaves undefined. *)

Inductive exn :=
| TypeError (id : Z)                (* nlohmann::json::type_error <id> *)
| KeyNotFound (key : string)        (* nlohmann::json::out_of_range 403 *)
| RuntimeError (what : string)      (* std::runtime_error *)
| InvalidArgument                   (* std::invalid_argument *)
| OutOfRange                        (* std::out_of_range *)
| Undefined.

Inductive result (A : Type) := Ok (a : A) | Err (e : exn).
Arguments Ok {A}. Arguments Err {A}.

Definition bind {A B : Type} (r : result A) (f : A -> result B) : result B :=
  match r with Ok a => f a | Err e => Err e end.

Notation "'let*' x ':=' r 'in' k" := (bind r (fun x => k))
  (at level 200, x ident, r at level 100, k at level 200).

(** * utils.hpp: parse_bind_address and the std::stoi it calls *)

Definition chr (n : nat) : Ascii.ascii := Ascii.ascii_of_nat n.

(** [isspace] in the "C" locale: space, \t, \n, \v, \f, \r. *)
Definition is_space (c : Ascii.ascii) : bool :=
  let n := Ascii.nat_of_ascii c in (n =? 32)%nat || ((9 <=? n)%nat && (n <=? 13)%nat).

Definition digit_value (c : Ascii.ascii) : option Z :=
  let n := Z.of_nat (Ascii.nat_of_ascii c) in
  if (48 <=? n) && (n <=? 57) then Some (n - 48) else None.

Fixpoint skip_spaces (s : string) : string :=
  match s with
  | String c r => if is_space c then skip_spaces r else s
  | EmptyString => s
  end.

(** The digits [strtol] consumes after the sign: the value of the longest
    prefix of decimal digits, [None] when there is none. *)
Fixpoint digits_from (acc : Z) (s : string) : Z :=
  match s with
  | String c r =>
      match digit_value c with
      | Some d => digits_from (acc * 10 + d) r
      | None => acc
      end
  | EmptyString => acc
  end.

Definition read_digits (s : string) : option Z :=
  match s with
  | String c r => match digit_value c with Some d => Some (digits_from d r) | None => None end
  | EmptyString => None
  end.

(** [std::stoi(str)]: [strtol(str.c_str(), &end, 10)] (leading white space,
    an optional sign, decimal digits), [std::invalid_argument] when nothing
    was converted, [std::out_of_range] when the value does not fit an
    [int] (a [long] overflow included).  A NUL stops the scan as any other
    non-digit does. *)
Definition stoi (str : string) : result Z :=
  let s := skip_spaces str in
  let '(neg, s') :=
    match s with
    | String c r =>
        if Ascii.eqb c (chr 45) then (true, r)           (* '-' *)
        else if Ascii.eqb c (chr 43) then (false, r)     (* '+' *)
        else (false, s)
    | EmptyString => (false, s)
    end in
  match read_digits s' with
  | None => Err InvalidArgument
  | Some v =>
      let v := if neg then - v else v in
      if (- 2 ^ 31 <=? v) && (v <? 2 ^ 31) then Ok v else Err OutOfRange
  end.

(** [std::string::find(char)]. *)
Fixpoint find_char (c : Ascii.ascii) (s : string) : option nat :=
  match s with
  | EmptyString => None
  | String c' r => if Ascii.eqb c' c then Some O else option_map S (find_char c r)
  end.

(** [s.substr(pos)] (to the end) and [s.substr(pos, n)]. *)
Definition substr_from (s : string) (pos : nat) : string :=
  String.substring pos (String.length s - pos) s.

Definition parse_bind_address (bind_addr : string) : result (string * Z) :=
  match find_char (chr 58) bind_addr with                (* ':' *)
  | None => Err (RuntimeError ("Invalid bind address format: " ++ bind_addr))
  | Some colon_pos =>
      let host := String.substring 0 colon_pos bind_addr in
      let* port := stoi (substr_from bind_addr (S colon_pos)) in
      Ok (host, port mod 2 ^ 16)                          (* int -> uint16_t *)
  end.

(** * nlohmann::json (types.hpp)

    A JSON value as nlohmann::json stores it.  An object is a std::map:
    its keys in increasing [std::string] order, each once.  [String.compare]
    orders characters as unsigned, as [std::char_traits<char>] does. *)

#[local] Set Warnings "-register-all".
Inductive json :=
| JNull
| JBool (b : bool)
| JInteger (i : Z)            (* number_integer: int64_t *)
| JUnsigned (n : Z)           (* number_unsigned: uint64_t *)
| JFloat (f : float)          (* number_float: double *)
| JString (s : string)
| JArray (xs : list json)
| JObject (kvs : list (string * json)).

(** [std::map::emplace]: insert unless the key is present. *)
Fixpoint map_emplace (k : string) (v : json) (kvs : list (string * json))
    : list (string * json) :=
  match kvs with
  | [] => [(k, v)]
  | (k', v') :: rest =>
      match String.compare k k' with
      | Lt => (k, v) :: kvs
      | Eq => kvs
      | Gt => (k', v') :: map_emplace k v rest
      end
  end.

(** [m[k] = v]: insert or overwrite. *)
Fixpoint map_assign (k : string) (v : json) (kvs : list (string * json))
    : list (string * json) :=
  match kvs with
  | [] => [(k, v)]
  | (k', v') :: rest =>
      match String.compare k k' with
      | Lt => (k, v) :: kvs
      | Eq => (k, v) :: rest
      | Gt => (k', v') :: map_assign k v rest
      end
  end.

Fixpoint map_find (k : string) (kvs : list (string * json)) : option json :=
  match kvs with
  | [] => None
  | (k', v) :: rest => if String.eqb k k' then Some v else map_find k rest
  end.

(** [json{{"k1", v1}, {"k2", v2}, ...}]: an object built by emplacing the
    pairs in order. *)
Definition json_object (kvs : list (string * json)) : json :=
  JObject (fold_left (fun acc kv => map_emplace (fst kv) (snd kv) acc) kvs []).

(** [j.at(key)] (const). *)
Definition json_at (key : string) (j : json) : result json :=
  match j with
  | JObject kvs =>
      match map_find key kvs with Some v => Ok v | None => Err (KeyNotFound key) end
  | _ => Err (TypeError 304)
  end.

(** [j[key] = v]: a null value becomes an object. *)
Definition json_set (key : string) (v : json) (j : json) : result json :=
  match j with
  | JNull => Ok (JObject [(key, v)])
  | JObject kvs => Ok (JObject (map_assign key v kvs))
  | _ => Err (TypeError 305)
  end.

(** [static_cast<double>(int64_t)], rounding to nearest even. *)
Definition i64_to_double (i : Z) : float :=
  if i <? 0 then (- u64_to_double (- i))%float else u64_to_double i.

(** [static_cast<T>(double)] to an unsigned type of [w] bits. *)
Definition double_to_unsigned (w : Z) (f : float) : result Z :=
  match trunc_Z f with
  | Some z => if (0 <=? z) && (z <? 2 ^ w) then Ok z else Err Undefined
  | None => Err Undefined
  end.

(** [get_to(uint64_t&)] and [get_to(double&)] (get_arithmetic_value: any
    number, converted by static_cast). *)
Definition get_u64 (j : json) : result Z :=
  match j with
  | JUnsigned n => Ok n
  | JInteger i => Ok (wrap64 i)
  | JFloat f => double_to_unsigned 64 f
  | _ => Err (TypeError 302)
  end.

Definition get_double (j : json) : result float :=
  match j with
  | JUnsigned n => Ok (u64_to_double n)
  | JInteger i => Ok (i64_to_double i)
  | JFloat f => Ok f
  | _ => Err (TypeError 302)
  end.

(** [get_to(uint32_t&)]: a number or a boolean, converted by static_cast. *)
Definition get_u32 (j : json) : result Z :=
  match j with
  | JUnsigned n => Ok (wrap32 n)
  | JInteger i => Ok (wrap32 i)
  | JFloat f => double_to_unsigned 32 f
  | JBool b => Ok (if b then 1 else 0)
  | _ => Err (TypeError 302)
  end.

Definition get_bool (j : json) : result bool :=
  match j with JBool b => Ok b | _ => Err (TypeError 302) end.

Definition get_string (j : json) : result string :=
  match j with JString s => Ok s | _ => Err (TypeError 302) end.

Definition get_field {A : Type} (get : json -> result A) (key : string) (j : json)
    : result A :=
  let* v := json_at key j in get v.

Definition source_name (s : SourceKind) : string :=
  match s with Dex => "dex" | Chainlink => "chainlink" end.

(** to_json(json&, const PriceMsg&) *)
Definition price_to_json (p : PriceMsg) : json :=
  json_object [("ts", JUnsigned (ts p)); ("pair", JString (pair p));
               ("price", JFloat (price p)); ("source", JString (source_name (source p)));
               ("src_seq", JUnsigned (src_seq p)); ("delay_ms", JUnsigned (delay_ms p));
               ("stale", JBool (stale p))].

(** from_json(const json&, PriceMsg&): the fields are read in this order,
    and the first failure is the exception thrown. *)
Definition price_from_json (j : json) : result PriceMsg :=
  let* ts := get_field get_u64 "ts" j in
  let* pair := get_field get_string "pair" j in
  let* price := get_field get_double "price" j in
  let* source_str := get_field get_string "source" j in
  let source := if String.eqb source_str "dex" then Dex else Chainlink in
  let* src_seq := get_field get_u64 "src_seq" j in
  let* delay_ms := get_field get_u32 "delay_ms" j in
  let* stale := get_field get_bool "stale" j in
  Ok (mkPriceMsg ts pair price source src_seq delay_ms stale).

Record SubscriptionMsg := mkSubscriptionMsg { sub_id : string; sub_status : string }.

Definition subscription_to_json (s : SubscriptionMsg) : json :=
  json_object [("type", JString "subscription"); ("id", JString (sub_id s));
               ("status", JString (sub_status s))].

Record PriceSnapshot := mkPriceSnapshot { prices : list PriceMsg; server_time : Z }.

Definition snapshot_to_json (s : PriceSnapshot) : json :=
  json_object [("prices", JArray (map price_to_json (prices s)));
               ("server_time", JUnsigned (server_time s))].

(** The snapshot built by the /prices/snapshot and /oracle/snapshot
    handlers from [get_last_price()] and [current_time_ms()]. *)
Definition handler_snapshot (last_price : option PriceMsg) (server_time : Z) : PriceSnapshot :=
  mkPriceSnapshot (match last_price with Some p => [p] | None => [] end) server_time.

(** WsMessage: [create_price] and [create_subscription]; the member of the
    other kind is left default-initialised and never read. *)
Inductive WsMessage :=
| WsPrice (p : PriceMsg)
| WsSubscription (s : SubscriptionMsg).

(** The value [to_json_string] dumps. *)
Definition ws_message_json (m : WsMessage) : result json :=
  match m with
  | WsPrice p => json_set "type" (JString "price") (price_to_json p)
  | WsSubscription s => Ok (subscription_to_json s)
  end.

(** * A concrete platform

    An instance of [Platform] used to run the model on concrete inputs.  It
    is not the C++ library: the generator is a counter, the normal sampler
    returns +1 or -1 by the parity of the counter, and [std_exp] is the
    degree-4 Taylor polynomial of exp (exact at 0).  Lemmas that evaluate the
    model on it only rely on what they state about it. *)

Definition toy_exp (x : float) : float :=
  (1 + x + x * x / 2 + x * x * x / 6 + x * x * x * x / 24)%float.

Definition toy_platform (hash : string -> Z) : Platform := {|
  Mt := Z;
  mt_seed := fun s => s;
  hash_string := hash;
  Normal := unit;
  normal_init := tt;
  normal_draw := fun n g => ((if Z.even g then 1 else -1)%float, n, g + 1);
  uniform_real01 := fun g => (0.5%float, g + 1);
  uniform_int := fun a _ g => (a, g + 1);
  std_exp := toy_exp;
  cast_u32_out_of_range := fun _ => 0
|}.

Definition toy_hash_a (s : string) : Z := Z.of_nat (String.length s).
Definition toy_hash_b (s : string) : Z := Z.of_nat (String.length s) + 1.
Definition toyP : Platform := toy_platform toy_hash_a.

(** * Calls on a price engine, for determinism *)

Record Call := mkCall {
  call_ts : Z; call_seq : Z; call_source : SourceKind; call_delay_ms : Z; call_stale : bool
}.

Fixpoint run_engine {P : Platform} (e : GbmPriceEngine P) (calls : list Call) : list PriceMsg :=
  match calls with
  | [] => []
  | c :: rest =>
      let '(msg, e') := next_tick e (call_ts c) (call_seq c) (call_source c)
                          (call_delay_ms c) (call_stale c) in
      msg :: run_engine e' rest
  end.

(** An engine built as main() builds it: its generator from (seed, label). *)
Definition engine_for (P : Platform) (seed : Z) (label : string) (pair : string)
    (initial_price drift volatility : float) (tick_interval_ms : Z) : GbmPriceEngine P :=
  gbm_create pair initial_price drift volatility tick_interval_ms (create_labeled_rng seed label).

(** The GBM update in the words of spec 4.2: dt, dW = z * sqrt dt,
    delta = mu * dt + sigma * dW, price := max(price * exp delta, 0.01),
    with max the std::max of the source. *)
Definition spec_dt (tick_interval_ms : Z) : float :=
  (u64_to_double tick_interval_ms / 1000 / 86400 / 365.25)%float.

Definition spec_new_price (P : Platform) (old mu sigma : float) (tick_interval_ms : Z)
    (z : float) : float :=
  let dt := spec_dt tick_interval_ms in
  let dW := (z * sqrt dt)%float in
  let delta := (mu * dt + sigma * dW)%float in
  std_max (old * std_exp P delta)%float 0.01.

(** The product [price_ * exp(relative_change)] before the floor. *)
Definition gbm_raw_price {P : Platform} (e : GbmPriceEngine P) (z : float) : float :=
  let dt := (u64_to_double (tick_interval_ms_ e) / 1000 / 86400 / 365.25)%float in
  (price_ e * std_exp P (drift_ e * dt + volatility_ e * (z * sqrt dt)))%float.

(** * Float comparison lemmas *)

Lemma SFcompare_antisym (x y : spec_float) :
  SFcompare y x = option_map CompOpp (SFcompare x y).
Proof.
  destruct x as [sx|sx| |sx mx ex], y as [sy|sy| |sy my ey];
    try destruct sx; try destruct sy; cbn; try reflexivity.
  all: rewrite (Z.compare_antisym ex ey); destruct (Z.compare ex ey); cbn; try reflexivity.
  all: pose proof (Pos.compare_cont_antisym mx my Eq) as A; cbn in A; rewrite <- A.
  all: try reflexivity.
  all: destruct (Pos.compare_cont Eq mx my); reflexivity.
Qed.

Lemma not_nan_Prim2SF (x : float) : is_nan x = false -> Prim2SF x <> S754_nan.
Proof.
  unfold is_nan. rewrite FloatAxioms.eqb_spec. intros H E. rewrite E in H. discriminate.
Qed.

Lemma ltb_false_leb (x y : float) :
  is_nan x = false -> is_nan y = false -> (x <? y)%float = false -> (y <=? x)%float = true.
Proof.
  intros Hx Hy Hlt.
  apply not_nan_Prim2SF in Hx. apply not_nan_Prim2SF in Hy.
  rewrite FloatAxioms.ltb_spec in Hlt. rewrite FloatAxioms.leb_spec.
  unfold SFltb in Hlt. unfold SFleb. rewrite SFcompare_antisym.
  destruct (SFcompare (Prim2SF x) (Prim2SF y)) as [[]|] eqn:C; cbn in *;
    try reflexivity; try discriminate.
  exfalso. destruct (Prim2SF x), (Prim2SF y); cbn in C; try discriminate; congruence.
Qed.

Lemma leb_one_leb_zero_false (p : float) :
  (1 <=? p)%float = true -> (p <=? 0)%float = false.
Proof.
  rewrite !FloatAxioms.leb_spec. cbn.
  destruct (Prim2SF p) as [[]|[]| |[] m e]; cbn; congruence.
Qed.

Lemma std_max_floor (x : float) :
  (0.01 <=? std_max x 0.01)%float = true \/
  (is_nan (std_max x 0.01) = true /\ std_max x 0.01 = x).
Proof.
  unfold std_max. destruct (x <? 0.01)%float eqn:L.
  - left. reflexivity.
  - destruct (is_nan x) eqn:N.
    + right. split; reflexivity.
    + left. apply ltb_false_leb; [exact N | reflexivity | exact L].
Qed.

(** * Theorems *)

(** C10: [happens(rng, p)] with [p <= 0.0] is false and with [p >= 1.0] is
    true, and [sample_range(rng, min, max)] with [min >= max] is [min]; in
    these three cases the generator is returned unchanged (nothing is
    drawn).  When [min > max] the result [min] is not in [[min, max]]. *)
Theorem happens_sample_range_degenerate (P : Platform) :
  (forall (rng : Mt P) (p : float), (p <=? 0)%float = true -> happens rng p = (false, rng)) /\
  (forall (rng : Mt P) (p : float), (1 <=? p)%float = true -> happens rng p = (true, rng)) /\
  (forall (rng : Mt P) (a b : Z), b <= a ->
     sample_range rng a b = (a, rng) /\
     (b < a -> ~ (a <= fst (sample_range rng a b) <= b))).
Proof.
  split; [|split].
  - intros rng p H. unfold happens. rewrite H. reflexivity.
  - intros rng p H. unfold happens. rewrite (leb_one_leb_zero_false p H), H. reflexivity.
  - intros rng a b H. unfold sample_range.
    assert (E : (b <=? a) = true) by (apply Z.leb_le; exact H).
    rewrite E. split; [reflexivity | cbn; lia].
Qed.

Lemma happens_sample_range_degenerate_witness :
  happens (P := toyP) 7 0 = (false, 7) /\ happens (P := toyP) 7 1 = (true, 7) /\
  sample_range (P := toyP) 7 5 3 = (5, 7).
Proof.
  destruct (happens_sample_range_degenerate toyP) as [H0 [H1 H2]].
  split; [apply H0; reflexivity | split; [apply H1; reflexivity |]].
  apply (H2 7 5 3); lia.
Defined.

(** C3: [next_tick] draws one normal sample [z] from the engine's own
    generator, sets the price to [max(price * exp(mu*dt + sigma*(z*sqrt dt)), 0.01)]
    with [dt = tick_interval_ms / 1000 / 86400 / 365.25] in doubles, and
    returns that price with exactly the [ts], pair, source, [seq], [delay_ms]
    and [stale] it was given; nothing else of the engine changes. *)
Theorem gbm_next_tick_spec (P : Platform) (e : GbmPriceEngine P) (ts seq : Z)
    (source : SourceKind) (delay_ms : Z) (stale : bool) :
  let '(z, normal', rng') := normal_draw P (normal_ e) (rng_ e) in
  let p := spec_new_price P (price_ e) (drift_ e) (volatility_ e) (tick_interval_ms_ e) z in
  next_tick e ts seq source delay_ms stale =
    (mkPriceMsg ts (pair_ e) p source seq delay_ms stale,
     mkGbm (pair_ e) p (drift_ e) (volatility_ e) (tick_interval_ms_ e) rng' normal').
Proof.
  unfold next_tick, spec_new_price, spec_dt.
  destruct (normal_draw P (normal_ e) (rng_ e)) as [[z normal'] rng']. reflexivity.
Qed.

(** Every tick of [next_tick] has price [>= 0.01], unless the product
    [price_ * exp(relative_change)] is NaN, in which case that NaN is the
    new price ([std::max(NaN, 0.01)] is NaN).  The engine's price is the
    tick's price. *)
Lemma next_tick_price_floor (P : Platform) (e : GbmPriceEngine P) (ts seq : Z)
    (source : SourceKind) (delay_ms : Z) (stale : bool) :
  let z := fst (fst (normal_draw P (normal_ e) (rng_ e))) in
  let '(msg, e') := next_tick e ts seq source delay_ms stale in
  ((0.01 <=? price msg)%float = true \/
   (is_nan (price msg) = true /\ price msg = gbm_raw_price e z)) /\
  price_ e' = price msg.
Proof.
  unfold next_tick, gbm_raw_price. cbn zeta.
  destruct (normal_draw P (normal_ e) (rng_ e)) as [[z normal'] rng']. cbn.
  split; [apply std_max_floor | reflexivity].
Qed.

Lemma is_nan_SF (x : float) : is_nan x = true -> Prim2SF x = S754_nan.
Proof.
  unfold is_nan. rewrite FloatAxioms.eqb_spec. unfold SFeqb.
  pose proof (SFcompare_antisym (Prim2SF x) (Prim2SF x)) as A.
  destruct (Prim2SF x) as [sg|sg| |sg m ex];
    [destruct sg; cbn; discriminate | destruct sg; cbn; discriminate | reflexivity |].
  destruct (SFcompare (S754_finite sg m ex) (S754_finite sg m ex)) as [[]|] eqn:Ec;
    cbn in A; try discriminate.
Qed.

Lemma SF_is_nan (x : float) : Prim2SF x = S754_nan -> is_nan x = true.
Proof. intros H. unfold is_nan. rewrite FloatAxioms.eqb_spec, H. reflexivity. Qed.

Lemma is_nan_mul_l (x y : float) : is_nan x = true -> is_nan (x * y)%float = true.
Proof.
  intros H. apply SF_is_nan. rewrite FloatAxioms.mul_spec, (is_nan_SF x H). reflexivity.
Qed.

Lemma std_max_nan (x : float) : is_nan x = true -> std_max x 0.01 = x.
Proof.
  intros H. unfold std_max. rewrite FloatAxioms.ltb_spec, (is_nan_SF x H). reflexivity.
Qed.

Lemma leb_nan_r (x : float) : is_nan x = true -> (0.01 <=? x)%float = false.
Proof. intros H. rewrite FloatAxioms.leb_spec, (is_nan_SF x H). reflexivity. Qed.

(** One call of [next_tick] on an engine whose price is NaN, or whose
    price is +inf while [std::exp] of the change underflows to +0 (inf * 0
    is NaN): the tick's price is NaN and not [>= 0.01], and the engine keeps
    that NaN. *)
Lemma next_tick_nan_step (P : Platform) (e : GbmPriceEngine P) ts seq source delay_ms stale :
  let z := fst (fst (normal_draw P (normal_ e) (rng_ e))) in
  let dt := (u64_to_double (tick_interval_ms_ e) / 1000 / 86400 / 365.25)%float in
  is_nan (price_ e) = true \/
  (price_ e = infinity /\
   std_exp P (drift_ e * dt + volatility_ e * (z * sqrt dt))%float = 0%float) ->
  let '(msg, e') := next_tick e ts seq source delay_ms stale in
  is_nan (price msg) = true /\ (0.01 <=? price msg)%float = false /\ price_ e' = price msg.
Proof.
  cbv zeta. unfold next_tick.
  destruct (normal_draw P (normal_ e) (rng_ e)) as [[z normal'] rng']. cbn [fst].
  intros H.
  assert (Hn : is_nan (price_ e * std_exp P
                 (drift_ e * (u64_to_double (tick_interval_ms_ e) / 1000 / 86400 / 365.25) +
                  volatility_ e * (z * sqrt (u64_to_double (tick_interval_ms_ e) / 1000 / 86400
                                               / 365.25))))%float = true).
  { destruct H as [H | [Hi He]]; [apply is_nan_mul_l; exact H |].
    rewrite Hi, He. reflexivity. }
  cbn [price price_]. rewrite (std_max_nan _ Hn).
  split; [exact Hn | split; [apply leb_nan_r; exact Hn | reflexivity]].
Qed.

(** C4 (code bug): the floor [std::max(price_ * exp(change), 0.01)] lets a
    NaN through.  An engine whose price is NaN ([price_start: .nan]), or is
    +inf (after an overflow under a huge [gbm_sigma]) while [std::exp] of
    the next change underflows to +0, emits a NaN price, which is not
    [>= 0.01]; from a NaN price every later tick is NaN. *)
Theorem next_tick_nan_passes_floor (P : Platform) :
  (forall (e : GbmPriceEngine P) ts seq source delay_ms stale,
     let z := fst (fst (normal_draw P (normal_ e) (rng_ e))) in
     let dt := (u64_to_double (tick_interval_ms_ e) / 1000 / 86400 / 365.25)%float in
     is_nan (price_ e) = true \/
     (price_ e = infinity /\
      std_exp P (drift_ e * dt + volatility_ e * (z * sqrt dt))%float = 0%float) ->
     let '(msg, e') := next_tick e ts seq source delay_ms stale in
     is_nan (price msg) = true /\ (0.01 <=? price msg)%float = false /\
     price_ e' = price msg) /\
  (forall (e : GbmPriceEngine P) (calls : list Call),
     is_nan (price_ e) = true ->
     Forall (fun m => is_nan (price m) = true /\ (0.01 <=? price m)%float = false)
       (run_engine e calls)).
Proof.
  split; [exact (next_tick_nan_step P) |].
  intros e calls. revert e.
  induction calls as [|c rest IH]; intros e He; cbn [run_engine]; [constructor |].
  pose proof (next_tick_nan_step P e (call_ts c) (call_seq c) (call_source c)
                (call_delay_ms c) (call_stale c) (or_introl He)) as Hs.
  destruct (next_tick e (call_ts c) (call_seq c) (call_source c) (call_delay_ms c)
              (call_stale c)) as [msg e'].
  destruct Hs as (Hn & Hl & He').
  constructor; [split; assumption |].
  apply IH. rewrite He'. exact Hn.
Qed.

(** C4 on a configuration with [price_start: .nan]: the first tick and the
    next three are all NaN, none of them [>= 0.01]. *)
Lemma next_tick_nan_passes_floor_witness :
  let e := gbm_create (P := toyP) "ETH/USD" nan 0 2 1000 (create_labeled_rng 42 "DEX") in
  (let '(msg, e') := next_tick e 0 0 Dex 0 false in
   is_nan (price msg) = true /\ (0.01 <=? price msg)%float = false /\ price_ e' = price msg) /\
  Forall (fun m => is_nan (price m) = true /\ (0.01 <=? price m)%float = false)
    (run_engine e [mkCall 0 0 Dex 0 false; mkCall 1 1 Dex 0 false; mkCall 2 2 Dex 0 false]).
Proof.
  cbv zeta. destruct (next_tick_nan_passes_floor toyP) as [T1 T2]. split.
  - apply T1. left. reflexivity.
  - apply T2. reflexivity.
Defined.

(** C2 (amended): on one platform (one C++ standard library and libm) the
    price sequence depends only on [seed XOR std::hash(label)], the engine
    parameters and the calls: engines built from the same (seed, label), or
    from any two pairs with the same derived seed, driven by the same calls
    give the same ticks. *)
Theorem engine_deterministic (P : Platform) (S1 S2 : Z) (L1 L2 : string) (pair : string)
    (initial_price drift volatility : float) (tick_interval_ms : Z) (calls : list Call) :
  Z.lxor S1 (hash_string P L1) = Z.lxor S2 (hash_string P L2) ->
  run_engine (engine_for P S1 L1 pair initial_price drift volatility tick_interval_ms) calls =
  run_engine (engine_for P S2 L2 pair initial_price drift volatility tick_interval_ms) calls.
Proof.
  intros H. unfold engine_for, create_labeled_rng. cbn zeta. rewrite H. reflexivity.
Qed.

Lemma engine_deterministic_witness :
  Z.lxor 42 (hash_string toyP "DEX") = Z.lxor 42 (hash_string toyP "DEX") /\
  run_engine (engine_for toyP 42 "DEX" "ETH/USD" 3500 0 2 1000) [mkCall 0 0 Dex 0 false] =
  run_engine (engine_for toyP 42 "DEX" "ETH/USD" 3500 0 2 1000) [mkCall 0 0 Dex 0 false].
Proof.
  split; [reflexivity |].
  apply engine_deterministic. reflexivity.
Defined.

(** C2: two platforms that differ only in [std::hash<std::string>] give
    different first prices for the same seed 42 and label "DEX". *)
Lemma engine_depends_on_string_hash :
  let call := [mkCall 0 0 Dex 0 false] in
  let pa := hd 0%float (map price (run_engine
              (engine_for (toy_platform toy_hash_a) 42 "DEX" "ETH/USD" 3500 0 2 1000) call)) in
  let pb := hd 0%float (map price (run_engine
              (engine_for (toy_platform toy_hash_b) 42 "DEX" "ETH/USD" 3500 0 2 1000) call)) in
  (pa =? pb)%float = false.
Proof. vm_compute. reflexivity. Qed.

(** * The Oracle gate *)

Definition oracle_tick_msg {P : Platform} (config : OracleConfig) (st : OracleTicker P)
    (clk : Clock) : PriceMsg :=
  fst (fst (oracle_generate config st clk)).

Definition oracle_gen_rng {P : Platform} (config : OracleConfig) (st : OracleTicker P)
    (clk : Clock) : Mt P :=
  snd (oracle_generate config st clk).

(** [mark_published] sets both publication fields together, so a published
    price comes with a publish time. *)
Definition pub_inv {P : Platform} (st : OracleTicker P) : Prop :=
  or_last_published_price st = None <-> or_last_publish_time st = None.

(** The publication conditions of spec 4.4, in its words: no prior
    publication; the absolute relative deviation in basis points, truncated
    to an integer, at least [oracle_deviation_bps]; or at least
    [oracle_heartbeat_ms] milliseconds of monotonic time since the last
    publish decision. *)
Definition gate_spec (config : OracleConfig) (lpp : option float) (lpt : option Z)
    (current_price : float) (now : Z) : Prop :=
  lpp = None \/
  (exists last bps, lpp = Some last /\
     trunc_Z (abs ((current_price - last) / last) * 10000)%float = Some bps /\
     oracle_deviation_bps config <= bps) \/
  (exists t, lpt = Some t /\ oracle_heartbeat_ms config <= elapsed_ms now t).

Lemma should_publish_spec (P : Platform) (config : OracleConfig) (lpp : option float)
    (lpt : option Z) (cur : float) (now : Z) :
  (lpp = None <-> lpt = None) ->
  (forall last, lpp = Some last ->
     exists bps, trunc_Z (abs ((cur - last) / last) * 10000)%float = Some bps /\ 0 <= bps < 2 ^ 32) ->
  (forall t, lpt = Some t -> 0 <= elapsed_ms now t < 2 ^ 64) ->
  should_publish P config lpp lpt cur now = true <-> gate_spec config lpp lpt cur now.
Proof.
  intros Hinv Hbps Hclk. unfold should_publish, gate_spec.
  destruct lpp as [last|].
  - destruct (Hbps last eq_refl) as [b [Hb Hr]].
    unfold cast_u32. rewrite Hb.
    replace ((0 <=? b) && (b <? 2 ^ 32)) with true
      by (symmetry; apply andb_true_intro; split; [apply Z.leb_le | apply Z.ltb_lt]; lia).
    destruct (oracle_deviation_bps config <=? b) eqn:D.
    + split; [intros _ | reflexivity].
      right. left. exists last, b. apply Z.leb_le in D. auto.
    + destruct lpt as [t|].
      2: { exfalso. pose proof (proj2 Hinv eq_refl). discriminate. }
      destruct (Hclk t eq_refl) as [H0 H1].
      unfold wrap64. rewrite Z.mod_small by lia.
      destruct (oracle_heartbeat_ms config <=? elapsed_ms now t) eqn:E.
      * split; [intros _ | reflexivity].
        right. right. exists t. split; [reflexivity | apply Z.leb_le; exact E].
      * split; [discriminate |].
        intros [H | [H | H]]; [discriminate | |].
        -- destruct H as [l [b' [Hl [Hb' Hle]]]]. injection Hl as <-.
           rewrite Hb in Hb'. injection Hb' as <-. apply Z.leb_gt in D. lia.
        -- destruct H as [t' [Ht' Hle]]. injection Ht' as <-. apply Z.leb_gt in E. lia.
  - split; [intros _; left; reflexivity | reflexivity].
Qed.

(** * Concrete Oracle runs on [toyP] *)

Definition demo_oracle_config (p_drop : float) : OracleConfig :=
  mkOracleConfig (mkRange 100 100) 50 500 (mkRange 0 0) p_drop 0 1000.

Definition demo_engine (volatility : float) : GbmPriceEngine toyP :=
  gbm_create "ETH/USD" 3500 0 volatility 100 (create_labeled_rng 42 "ORACLE").

(** Before the first publication. *)
Definition demo_oracle_fresh : OracleTicker toyP :=
  mkOracleTicker (demo_engine 2) (create_labeled_rng 42 "ORACLE_TICKER") 0 0
    None None None metrics_reset.

(** After a publication of 3500 at time 0 with seq 5; the engine has zero
    drift and volatility, so its price stays at 3500. *)
Definition demo_oracle_published : OracleTicker toyP :=
  mkOracleTicker (demo_engine 0) (create_labeled_rng 42 "ORACLE_TICKER") 5 0
    None (Some 3500%float) (Some 0) metrics_reset.

Definition demo_clock (ms : Z) : Clock := mkClock (ms * 1000000) (1700000000000 + ms).

(** C5: when the gate rejects a generated Oracle tick, nothing is broadcast,
    no metrics counter changes and [seq] is not incremented; when it passes,
    [price_ticks_generated] is incremented (whether or not the frame is then
    dropped). *)
Theorem oracle_gate_reject_discards (P : Platform) (config : OracleConfig)
    (st : OracleTicker P) (clk : Clock) :
  let sp := should_publish P config (or_last_published_price st) (or_last_publish_time st)
              (price (oracle_tick_msg config st clk)) (now clk) in
  let '(st', sent) := oracle_step config st clk in
  (sp = false -> sent = [] /\ or_metrics st' = or_metrics st /\ or_seq st' = or_seq st) /\
  (sp = true -> price_ticks_generated (or_metrics st') =
                incr (price_ticks_generated (or_metrics st))).
Proof.
  unfold oracle_step, oracle_tick_msg. cbv zeta.
  destruct (oracle_generate config st clk) as [[msg eng'] r2]. cbn [fst snd].
  destruct (should_publish P config (or_last_published_price st) (or_last_publish_time st)
              (price msg) (now clk)); cbn.
  - destruct (happens r2 (oracle_p_drop config)) as [[] r3]; cbn.
    + split; intros H; [discriminate | reflexivity].
    + destruct (happens r3 (oracle_p_dup config)) as [[] r4]; cbn;
        split; intros H; try discriminate; reflexivity.
  - split; intros H; [repeat split | discriminate].
Qed.

Lemma oracle_gate_reject_discards_witness :
  should_publish toyP (demo_oracle_config 0) (Some 3500%float) (Some 0)
    (price (oracle_tick_msg (demo_oracle_config 0) demo_oracle_published (demo_clock 100)))
    (now (demo_clock 100)) = false /\
  snd (oracle_step (demo_oracle_config 0) demo_oracle_published (demo_clock 100)) = [] /\
  or_metrics (fst (oracle_step (demo_oracle_config 0) demo_oracle_published (demo_clock 100)))
    = metrics_reset /\
  or_seq (fst (oracle_step (demo_oracle_config 0) demo_oracle_published (demo_clock 100))) = 5.
Proof.
  assert (Hsp : should_publish toyP (demo_oracle_config 0) (Some 3500%float) (Some 0)
    (price (oracle_tick_msg (demo_oracle_config 0) demo_oracle_published (demo_clock 100)))
    (now (demo_clock 100)) = false) by (vm_compute; reflexivity).
  pose proof (oracle_gate_reject_discards toyP (demo_oracle_config 0) demo_oracle_published
                (demo_clock 100)) as T.
  cbv zeta in T.
  destruct (oracle_step (demo_oracle_config 0) demo_oracle_published (demo_clock 100))
    as [st' sent].
  destruct T as [T _]. destruct (T Hsp) as [H1 [H2 H3]].
  split; [exact Hsp | split; [exact H1 | split; [exact H2 | exact H3]]].
Defined.

(** C6: on every tick that passes the gate, [last_published_price] is set
    to the tick's price and [last_publish_time] to the decision time,
    whether the drop decision then fires (nothing is broadcast) or not (the
    tick is broadcast). *)
Theorem oracle_gate_pass_marks_published (P : Platform) (config : OracleConfig)
    (st : OracleTicker P) (clk : Clock) :
  should_publish P config (or_last_published_price st) (or_last_publish_time st)
    (price (oracle_tick_msg config st clk)) (now clk) = true ->
  let msg := oracle_tick_msg config st clk in
  let drop := fst (happens (oracle_gen_rng config st clk) (oracle_p_drop config)) in
  let '(st', sent) := oracle_step config st clk in
  or_last_published_price st' = Some (price msg) /\
  or_last_publish_time st' = Some (now clk) /\
  (if drop then sent = [] else hd_error sent = Some msg).
Proof.
  unfold oracle_step, oracle_tick_msg, oracle_gen_rng. cbv zeta.
  destruct (oracle_generate config st clk) as [[msg eng'] r2]. cbn [fst snd].
  intros Hsp. rewrite Hsp. cbn [negb].
  destruct (happens r2 (oracle_p_drop config)) as [[] r3]; cbn [fst].
  - repeat split.
  - destruct (happens r3 (oracle_p_dup config)) as [[] r4]; repeat split.
Qed.

(** C6 on the first Oracle tick: with [oracle_p_drop = 1.0] it is dropped,
    with [oracle_p_drop = 0] broadcast, and both times it is marked as
    published at 100 ms. *)
Lemma oracle_gate_pass_marks_published_witness :
  let msg := oracle_tick_msg (demo_oracle_config 1) demo_oracle_fresh (demo_clock 100) in
  (let '(st', sent) := oracle_step (demo_oracle_config 1) demo_oracle_fresh (demo_clock 100) in
   or_last_published_price st' = Some (price msg) /\
   or_last_publish_time st' = Some (now (demo_clock 100)) /\ sent = []) /\
  (let '(st', sent) := oracle_step (demo_oracle_config 0) demo_oracle_fresh (demo_clock 100) in
   or_last_published_price st' = Some (price msg) /\
   or_last_publish_time st' = Some (now (demo_clock 100)) /\ hd_error sent = Some msg).
Proof.
  pose proof (oracle_gate_pass_marks_published toyP (demo_oracle_config 1) demo_oracle_fresh
                (demo_clock 100) (eq_refl true)) as T1.
  pose proof (oracle_gate_pass_marks_published toyP (demo_oracle_config 0) demo_oracle_fresh
                (demo_clock 100) (eq_refl true)) as T0.
  cbv zeta in T1, T0 |- *.
  assert (E : oracle_tick_msg (demo_oracle_config 0) demo_oracle_fresh (demo_clock 100) =
              oracle_tick_msg (demo_oracle_config 1) demo_oracle_fresh (demo_clock 100))
    by reflexivity.
  rewrite E in T0.
  change (fst (happens (oracle_gen_rng (demo_oracle_config 1) demo_oracle_fresh
                          (demo_clock 100)) (oracle_p_drop (demo_oracle_config 1)))) with true in T1.
  change (fst (happens (oracle_gen_rng (demo_oracle_config 0) demo_oracle_fresh
                          (demo_clock 100)) (oracle_p_drop (demo_oracle_config 0)))) with false in T0.
  cbv iota in T1, T0. split; [exact T1 | exact T0].
Defined.

(** C1 (amended): for a tick whose deviation from the last published
    price, [|(price - last) / last| * 10000], is a number whose truncation
    lies in [0, 2^32) (for a NaN or a larger value the uint32_t cast in
    [should_publish] is undefined behaviour), the gate passes exactly when
    one of the three conditions holds (no prior publication; truncated
    deviation in bps at least the threshold; heartbeat elapsed), and the
    tick is broadcast exactly when the gate passes and the drop decision
    that follows does not fire.  The price and time of the last publication
    are set together (as every run keeps them) and the clock is monotonic. *)
Theorem oracle_broadcast_iff_gate_not_dropped (P : Platform) (config : OracleConfig)
    (st : OracleTicker P) (clk : Clock) :
  pub_inv st ->
  (forall last, or_last_published_price st = Some last ->
     exists bps, trunc_Z (abs ((price (oracle_tick_msg config st clk) - last) / last)
                          * 10000)%float = Some bps /\ 0 <= bps < 2 ^ 32) ->
  (forall t, or_last_publish_time st = Some t -> 0 <= elapsed_ms (now clk) t < 2 ^ 64) ->
  (should_publish P config (or_last_published_price st) (or_last_publish_time st)
     (price (oracle_tick_msg config st clk)) (now clk) = true <->
   gate_spec config (or_last_published_price st) (or_last_publish_time st)
     (price (oracle_tick_msg config st clk)) (now clk)) /\
  (snd (oracle_step config st clk) <> [] <->
   gate_spec config (or_last_published_price st) (or_last_publish_time st)
     (price (oracle_tick_msg config st clk)) (now clk) /\
   fst (happens (oracle_gen_rng config st clk) (oracle_p_drop config)) = false).
Proof.
  intros Hinv Hbps Hclk.
  pose proof (should_publish_spec P config (or_last_published_price st)
                (or_last_publish_time st) (price (oracle_tick_msg config st clk)) (now clk)
                Hinv Hbps Hclk) as Hsp.
  split; [exact Hsp |].
  rewrite <- Hsp.
  unfold oracle_step, oracle_tick_msg, oracle_gen_rng in *.
  destruct (oracle_generate config st clk) as [[msg eng'] r2]. cbn [fst snd] in *.
  destruct (should_publish P config (or_last_published_price st) (or_last_publish_time st)
              (price msg) (now clk)); cbn.
  - destruct (happens r2 (oracle_p_drop config)) as [[] r3]; cbn.
    + split; [intros H; congruence | intros [_ H]; discriminate].
    + destruct (happens r3 (oracle_p_dup config)) as [[] r4]; cbn;
        split; intros _; try discriminate; split; reflexivity.
  - split; [intros H; congruence | intros [H _]; discriminate].
Qed.

Lemma oracle_broadcast_iff_gate_not_dropped_witness :
  snd (oracle_step (demo_oracle_config 0) demo_oracle_published (demo_clock 100)) <> [] <->
  gate_spec (demo_oracle_config 0) (Some 3500%float) (Some 0)
    (price (oracle_tick_msg (demo_oracle_config 0) demo_oracle_published (demo_clock 100)))
    (now (demo_clock 100)) /\
  fst (happens (oracle_gen_rng (demo_oracle_config 0) demo_oracle_published (demo_clock 100)) 0)
    = false.
Proof.
  refine (proj2 (oracle_broadcast_iff_gate_not_dropped toyP (demo_oracle_config 0)
                   demo_oracle_published (demo_clock 100) _ _ _)).
  - split; intros H; discriminate.
  - intros last H. injection H as <-. exists 0. split; [vm_compute; reflexivity | lia].
  - intros t H. injection H as <-.
    assert (E : elapsed_ms (now (demo_clock 100)) 0 = 100) by reflexivity. rewrite E. lia.
Defined.

(** C1: the first Oracle tick passes the gate (no prior publication) but,
    with [oracle_p_drop = 1.0], is not broadcast. *)
Lemma oracle_gate_pass_not_broadcast :
  or_last_published_price demo_oracle_fresh = None /\
  snd (oracle_step (demo_oracle_config 1) demo_oracle_fresh (demo_clock 100)) = [].
Proof. split; vm_compute; reflexivity. Qed.

(** * Sequence numbers *)

(** The [src_seq] of each iteration's first frame, skipping iterations that
    broadcast nothing. *)
Fixpoint group_seqs (groups : list (list PriceMsg)) : list Z :=
  match groups with
  | [] => []
  | [] :: gs => group_seqs gs
  | (m :: _) :: gs => src_seq m :: group_seqs gs
  end.

(** An iteration broadcasts nothing, one frame, or one frame twice. *)
Definition frame_group (g : list PriceMsg) : Prop :=
  g = [] \/ exists m, g = [m] \/ g = [m; m].

Section SeqOrder.
Variable S : Type.
Variable seq_of : S -> Z.
Variable step : S -> Clock -> S * list PriceMsg.
Hypothesis step_seq : forall st clk,
  let '(st1, sent) := step st clk in
  (seq_of st1 = seq_of st \/ seq_of st1 = incr (seq_of st)) /\
  (sent = [] \/
   exists m, src_seq m = seq_of st /\ seq_of st1 = incr (seq_of st) /\
             (sent = [m] \/ sent = [m; m])).

Lemma incr_small (s : Z) : 0 <= s -> s + 1 < 2 ^ 64 -> incr s = s + 1.
Proof. intros H0 H1. unfold incr, wrap64. apply Z.mod_small. lia. Qed.

Lemma loop_seqs_sorted (clocks : list Clock) :
  forall st, 0 <= seq_of st -> seq_of st + Z.of_nat (List.length clocks) < 2 ^ 64 ->
  let '(st', groups) := ticker_loop step st clocks in
  Sorted Z.lt (group_seqs groups) /\
  Forall (fun z => seq_of st <= z) (group_seqs groups) /\
  Forall frame_group groups.
Proof.
  induction clocks as [|clk rest IH]; intros st H0 Hb; cbn.
  - repeat split; constructor.
  - cbn [List.length] in Hb. rewrite Nat2Z.inj_succ in Hb.
    pose proof (step_seq st clk) as Hs.
    destruct (step st clk) as [st1 sent].
    destruct Hs as [Hseq Hsent].
    assert (Hinc : incr (seq_of st) = seq_of st + 1) by (apply incr_small; lia).
    assert (H1 : 0 <= seq_of st1) by (destruct Hseq; lia).
    assert (H2 : seq_of st1 + Z.of_nat (List.length rest) < 2 ^ 64) by (destruct Hseq; lia).
    specialize (IH st1 H1 H2).
    destruct (ticker_loop step st1 rest) as [st2 groups].
    destruct IH as [Hsort [Hge Hgroups]].
    destruct Hsent as [-> | [m [Hm [Hst1 Hshape]]]].
    + cbn. split; [exact Hsort | split; [| constructor; [left; reflexivity | exact Hgroups]]].
      eapply Forall_impl; [| exact Hge]. intros z Hz. cbn in Hz. destruct Hseq; lia.
    + assert (Hgt : Forall (fun z => seq_of st < z) (group_seqs groups)).
      { eapply Forall_impl; [| exact Hge]. intros z Hz. cbn in Hz. lia. }
      destruct Hshape as [-> | ->]; cbn; rewrite Hm;
        (split; [constructor; [exact Hsort |] | split; [constructor; [lia |] | ]]).
      all: try (eapply Forall_impl; [| exact Hgt]; intros z Hz; cbn in Hz; lia).
      all: try (destruct (group_seqs groups); constructor; inversion Hgt; lia).
      all: constructor; [right; exists m; auto | exact Hgroups].
Qed.

End SeqOrder.

Lemma next_tick_src_seq (P : Platform) (e : GbmPriceEngine P) ts seq source delay st :
  src_seq (fst (next_tick e ts seq source delay st)) = seq.
Proof.
  unfold next_tick. destruct (normal_draw P (normal_ e) (rng_ e)) as [[z n'] g']. reflexivity.
Qed.

Lemma dex_generate_src_seq (P : Platform) config (st : DexTicker P) clk :
  src_seq (fst (fst (dex_generate config st clk))) = dx_seq st.
Proof.
  unfold dex_generate.
  destruct (sample_range (dx_rng st) _ _) as [tick_ms r1].
  destruct (if dex_burst_mode config then _ else _) as [t r2].
  destruct (sample_range r2 _ _) as [d r3].
  match goal with |- context [next_tick ?e ?a ?b ?c ?d ?f] =>
    pose proof (next_tick_src_seq P e a b c d f) as H; destruct (next_tick e a b c d f)
  end.
  exact H.
Qed.

Lemma oracle_generate_src_seq (P : Platform) config (st : OracleTicker P) clk :
  src_seq (oracle_tick_msg config st clk) = or_seq st.
Proof.
  unfold oracle_tick_msg, oracle_generate.
  destruct (sample_range (or_rng st) _ _) as [tick_ms r1].
  destruct (sample_range r1 _ _) as [d r2].
  match goal with |- context [next_tick ?e ?a ?b ?c ?d ?f] =>
    pose proof (next_tick_src_seq P e a b c d f) as H; destruct (next_tick e a b c d f)
  end.
  exact H.
Qed.

Lemma dex_step_frames (P : Platform) config (st : DexTicker P) clk :
  let msg := fst (fst (dex_generate config st clk)) in
  let '(st1, sent) := dex_step config st clk in
  dx_seq st1 = incr (dx_seq st) /\ (sent = [] \/ sent = [msg] \/ sent = [msg; msg]).
Proof.
  unfold dex_step. cbv zeta.
  destruct (dex_generate config st clk) as [[msg eng'] r3]. cbn [fst].
  destruct (happens r3 (dex_p_drop config)) as [[] r4]; cbn; [auto |].
  destruct (happens r4 (dex_p_dup config)) as [[] r5]; cbn; auto.
Qed.

Lemma oracle_step_frames (P : Platform) config (st : OracleTicker P) clk :
  let msg := oracle_tick_msg config st clk in
  let sp := should_publish P config (or_last_published_price st) (or_last_publish_time st)
              (price msg) (now clk) in
  let '(st1, sent) := oracle_step config st clk in
  or_seq st1 = (if sp then incr (or_seq st) else or_seq st) /\
  (sent = [] \/ (sp = true /\ (sent = [msg] \/ sent = [msg; msg]))).
Proof.
  unfold oracle_step, oracle_tick_msg. cbv zeta.
  destruct (oracle_generate config st clk) as [[msg eng'] r2]. cbn [fst].
  destruct (should_publish P config (or_last_published_price st) (or_last_publish_time st)
              (price msg) (now clk)); cbn; [| auto].
  destruct (happens r2 (oracle_p_drop config)) as [[] r3]; cbn; [auto |].
  destruct (happens r3 (oracle_p_dup config)) as [[] r4]; cbn; auto.
Qed.

Lemma dex_step_seq (P : Platform) (config : DexConfig) (st : DexTicker P) (clk : Clock) :
  let '(st1, sent) := dex_step config st clk in
  (dx_seq st1 = dx_seq st \/ dx_seq st1 = incr (dx_seq st)) /\
  (sent = [] \/
   exists m, src_seq m = dx_seq st /\ dx_seq st1 = incr (dx_seq st) /\
             (sent = [m] \/ sent = [m; m])).
Proof.
  pose proof (dex_step_frames P config st clk) as F.
  pose proof (dex_generate_src_seq P config st clk) as G. cbv zeta in F.
  destruct (dex_step config st clk) as [st1 sent]. destruct F as [Hs Hf].
  split; [right; exact Hs |].
  destruct Hf as [-> | [-> | ->]]; [left; reflexivity | |];
    right; exists (fst (fst (dex_generate config st clk))); auto.
Qed.

Lemma oracle_step_seq (P : Platform) (config : OracleConfig) (st : OracleTicker P)
    (clk : Clock) :
  let '(st1, sent) := oracle_step config st clk in
  (or_seq st1 = or_seq st \/ or_seq st1 = incr (or_seq st)) /\
  (sent = [] \/
   exists m, src_seq m = or_seq st /\ or_seq st1 = incr (or_seq st) /\
             (sent = [m] \/ sent = [m; m])).
Proof.
  pose proof (oracle_step_frames P config st clk) as F.
  pose proof (oracle_generate_src_seq P config st clk) as G. cbv zeta in F.
  destruct (oracle_step config st clk) as [st1 sent]. destruct F as [Hs Hf].
  destruct (should_publish P config (or_last_published_price st) (or_last_publish_time st)
              (price (oracle_tick_msg config st clk)) (now clk)).
  - split; [right; exact Hs |].
    destruct Hf as [-> | [_ [-> | ->]]]; [left; reflexivity | |];
      right; exists (oracle_tick_msg config st clk); auto.
  - split; [left; exact Hs |].
    destruct Hf as [-> | [H _]]; [left; reflexivity | discriminate].
Qed.

(** * Concrete DEX runs on [toyP] *)

Definition demo_dex_config (p_drop p_dup : float) : DexConfig :=
  mkDexConfig (mkRange 50 150) (mkRange 0 10) p_drop p_dup false 100 1000 2000.

Definition demo_dex_state : DexTicker toyP :=
  mkDexTicker (gbm_create "ETH/USD" 3500 0 2 1000 (create_labeled_rng 42 "DEX"))
    (create_labeled_rng 42 "DEX_TICKER") 0 0 None metrics_reset.

Definition demo_clocks : list Clock := [demo_clock 100; demo_clock 200; demo_clock 300].

(** C7 (amended): in the DEX feed every generated tick carries the current
    [seq] and [seq] is incremented once per generated tick; in the Oracle
    feed every generated tick carries the current [seq] and [seq] is
    incremented only when the tick passes the gate (dropped or not).  In
    both feeds the frames of one iteration are the generated tick, once or
    twice (a duplicate shares its original's [src_seq]), and along a run
    without wrap-around of the 64-bit counter the [src_seq]s of successive
    broadcasting iterations strictly increase; a dropped tick consumes its
    [seq], leaving a gap. *)
Theorem src_seq_per_feed (P : Platform) :
  (forall config (st : DexTicker P) clk,
     src_seq (fst (fst (dex_generate config st clk))) = dx_seq st /\
     dx_seq (fst (dex_step config st clk)) = incr (dx_seq st) /\
     Forall (fun m => m = fst (fst (dex_generate config st clk))) (snd (dex_step config st clk))) /\
  (forall config (st : OracleTicker P) clk,
     src_seq (oracle_tick_msg config st clk) = or_seq st /\
     or_seq (fst (oracle_step config st clk)) =
       (if should_publish P config (or_last_published_price st) (or_last_publish_time st)
             (price (oracle_tick_msg config st clk)) (now clk)
        then incr (or_seq st) else or_seq st) /\
     Forall (fun m => m = oracle_tick_msg config st clk) (snd (oracle_step config st clk))) /\
  (forall config (st : DexTicker P) clocks,
     0 <= dx_seq st -> dx_seq st + Z.of_nat (List.length clocks) < 2 ^ 64 ->
     Sorted Z.lt (group_seqs (snd (dex_run config st clocks))) /\
     Forall frame_group (snd (dex_run config st clocks))) /\
  (forall config (st : OracleTicker P) clocks,
     0 <= or_seq st -> or_seq st + Z.of_nat (List.length clocks) < 2 ^ 64 ->
     Sorted Z.lt (group_seqs (snd (oracle_run config st clocks))) /\
     Forall frame_group (snd (oracle_run config st clocks))).
Proof.
  split; [| split; [| split]].
  - intros config st clk.
    pose proof (dex_step_frames P config st clk) as F. cbv zeta in F.
    split; [apply dex_generate_src_seq |].
    destruct (dex_step config st clk) as [st1 sent]. destruct F as [Hs Hf].
    split; [exact Hs |]. cbn.
    destruct Hf as [-> | [-> | ->]]; repeat constructor.
  - intros config st clk.
    pose proof (oracle_step_frames P config st clk) as F. cbv zeta in F.
    split; [apply oracle_generate_src_seq |].
    destruct (oracle_step config st clk) as [st1 sent]. destruct F as [Hs Hf].
    split; [exact Hs |]. cbn.
    destruct Hf as [-> | [_ [-> | ->]]]; repeat constructor.
  - intros config st clocks H0 Hb.
    pose proof (loop_seqs_sorted _ dx_seq (dex_step config) (dex_step_seq P config)
                  clocks st H0 Hb) as L.
    unfold dex_run. destruct (ticker_loop (dex_step config) st clocks) as [st' groups].
    cbn. tauto.
  - intros config st clocks H0 Hb.
    pose proof (loop_seqs_sorted _ or_seq (oracle_step config) (oracle_step_seq P config)
                  clocks st H0 Hb) as L.
    unfold oracle_run. destruct (ticker_loop (oracle_step config) st clocks) as [st' groups].
    cbn. tauto.
Qed.

Lemma src_seq_per_feed_witness :
  Sorted Z.lt (group_seqs (snd (dex_run (demo_dex_config 0 1) demo_dex_state demo_clocks))) /\
  Sorted Z.lt (group_seqs (snd (oracle_run (demo_oracle_config 0) demo_oracle_fresh demo_clocks))).
Proof.
  destruct (src_seq_per_feed toyP) as [_ [_ [Hd Ho]]].
  split.
  - apply (Hd (demo_dex_config 0 1) demo_dex_state demo_clocks); cbn; lia.
  - apply (Ho (demo_oracle_config 0) demo_oracle_fresh demo_clocks); cbn; lia.
Defined.

(** C7: two successive generated Oracle ticks, the first rejected by the
    gate, carry the same [src_seq] 5. *)
Lemma oracle_rejected_tick_keeps_seq :
  let st1 := fst (oracle_step (demo_oracle_config 0) demo_oracle_published (demo_clock 100)) in
  snd (oracle_step (demo_oracle_config 0) demo_oracle_published (demo_clock 100)) = [] /\
  src_seq (oracle_tick_msg (demo_oracle_config 0) demo_oracle_published (demo_clock 100)) = 5 /\
  src_seq (oracle_tick_msg (demo_oracle_config 0) st1 (demo_clock 200)) = 5.
Proof. vm_compute. repeat split. Qed.

(** * DEX accounting *)

Lemma happens_one_draws_nothing (P : Platform) (rng : Mt P) : happens rng 1 = (true, rng).
Proof. reflexivity. Qed.

Lemma dex_run_drop_all (P : Platform) (config : DexConfig) (clocks : list Clock) :
  dex_p_drop config = 1%float ->
  forall (st : DexTicker P) k,
  dx_metrics st = mkMetrics k 0 k 0 -> 0 <= k ->
  k + Z.of_nat (List.length clocks) < 2 ^ 64 ->
  dx_metrics (fst (dex_run config st clocks)) =
    mkMetrics (k + Z.of_nat (List.length clocks)) 0 (k + Z.of_nat (List.length clocks)) 0 /\
  Forall (fun g => g = []) (snd (dex_run config st clocks)).
Proof.
  intros Hd. unfold dex_run.
  induction clocks as [|clk rest IH]; intros st k Hm H0 Hb.
  - cbn. rewrite Z.add_0_r. split; [exact Hm | constructor].
  - cbn [List.length] in Hb |- *. rewrite Nat2Z.inj_succ in Hb |- *.
    cbn [ticker_loop].
    destruct (dex_generate config st clk) as [[msg eng'] r3] eqn:Eg.
    assert (Hs : dex_step config st clk =
                 (mkDexTicker eng' r3 (incr (dx_seq st)) (now clk) (dx_last_price st)
                    (inc_dropped (inc_generated (dx_metrics st))), [])).
    { unfold dex_step. rewrite Eg, Hd, happens_one_draws_nothing. reflexivity. }
    rewrite Hs.
    assert (Hk : incr k = k + 1) by (apply incr_small; lia).
    specialize (IH (mkDexTicker eng' r3 (incr (dx_seq st)) (now clk) (dx_last_price st)
                      (inc_dropped (inc_generated (dx_metrics st)))) (k + 1)).
    destruct (ticker_loop (dex_step config)
                (mkDexTicker eng' r3 (incr (dx_seq st)) (now clk) (dx_last_price st)
                   (inc_dropped (inc_generated (dx_metrics st)))) rest) as [st2 groups].
    assert (Hm' : dx_metrics (mkDexTicker eng' r3 (incr (dx_seq st)) (now clk)
                    (dx_last_price st) (inc_dropped (inc_generated (dx_metrics st))))
                  = mkMetrics (k + 1) 0 (k + 1) 0).
    { cbn [dx_metrics]. rewrite Hm. unfold inc_dropped, inc_generated.
      cbn [price_ticks_generated ws_frames_sent ws_frames_dropped ws_frames_duplicated].
      rewrite Hk. reflexivity. }
    destruct (IH Hm' ltac:(lia) ltac:(lia)) as [IH1 IH2]. cbn [fst snd] in IH1, IH2 |- *.
    split; [rewrite IH1; f_equal; lia | constructor; auto].
Qed.

(** C8: each DEX iteration increments [price_ticks_generated] and sets the
    last-tick time; if the drop decision fires it increments
    [ws_frames_dropped] and broadcasts nothing, otherwise it broadcasts the
    tick once, increments [ws_frames_sent], and if the duplicate decision
    fires broadcasts it again and increments [ws_frames_duplicated].  With
    [dex_p_drop = 1.0], N iterations from reset counters leave
    [price_ticks_generated = N], [ws_frames_dropped = N] and
    [ws_frames_sent = 0], and broadcast nothing. *)
Theorem dex_tick_accounting (P : Platform) :
  (forall config (st : DexTicker P) clk,
     let '(msg, _, r3) := dex_generate config st clk in
     let '(drop, r4) := happens r3 (dex_p_drop config) in
     let dup := fst (happens r4 (dex_p_dup config)) in
     let '(st', sent) := dex_step config st clk in
     let m := dx_metrics st in
     let m' := dx_metrics st' in
     price_ticks_generated m' = incr (price_ticks_generated m) /\
     dx_last_tick_time st' = now clk /\
     (if drop
      then sent = [] /\ ws_frames_dropped m' = incr (ws_frames_dropped m) /\
           ws_frames_sent m' = ws_frames_sent m /\
           ws_frames_duplicated m' = ws_frames_duplicated m
      else ws_frames_dropped m' = ws_frames_dropped m /\
           ws_frames_sent m' = incr (ws_frames_sent m) /\
           (if dup
            then sent = [msg; msg] /\ ws_frames_duplicated m' = incr (ws_frames_duplicated m)
            else sent = [msg] /\ ws_frames_duplicated m' = ws_frames_duplicated m))) /\
  (forall config (st : DexTicker P) clocks,
     dex_p_drop config = 1%float -> dx_metrics st = metrics_reset ->
     Z.of_nat (List.length clocks) < 2 ^ 64 ->
     let n := Z.of_nat (List.length clocks) in
     dx_metrics (fst (dex_run config st clocks)) = mkMetrics n 0 n 0 /\
     Forall (fun g => g = []) (snd (dex_run config st clocks))).
Proof.
  split.
  - intros config st clk. unfold dex_step.
    destruct (dex_generate config st clk) as [[msg eng'] r3].
    destruct (happens r3 (dex_p_drop config)) as [[] r4]; cbn; [repeat split |].
    destruct (happens r4 (dex_p_dup config)) as [[] r5]; cbn; repeat split.
  - intros config st clocks Hd Hm Hb. cbv zeta.
    apply (dex_run_drop_all P config clocks Hd st 0); [exact Hm | lia | lia].
Qed.

Lemma dex_tick_accounting_witness :
  dx_metrics (fst (dex_run (demo_dex_config 1 0) demo_dex_state demo_clocks)) =
    mkMetrics 3 0 3 0 /\
  Forall (fun g => g = []) (snd (dex_run (demo_dex_config 1 0) demo_dex_state demo_clocks)).
Proof.
  destruct (dex_tick_accounting toyP) as [_ H].
  apply (H (demo_dex_config 1 0) demo_dex_state demo_clocks); [reflexivity | reflexivity | cbn; lia].
Defined.

(** * HTTP *)

(** C9: on both servers every response is either a 200 carrying
    [Access-Control-Allow-Origin: *], or a 404 with content type
    [text/plain] and body ["Not found: " ++ target] that carries no
    [Access-Control-Allow-Origin] field; a request for [/unknown] gets the
    latter. *)
Theorem http_not_found_lacks_cors :
  (forall metrics_text snapshot_json req,
     let res := oracle_handle_http_request metrics_text snapshot_json req in
     (status res = 200 /\ field_value res AccessControlAllowOrigin = Some "*") \/
     (status res = 404 /\ field_value res ContentType = Some "text/plain" /\
      body res = "Not found: " ++ target req /\
      field_value res AccessControlAllowOrigin = None)) /\
  (forall metrics_text snapshot_json load_static_file req,
     let res := dex_handle_http_request metrics_text snapshot_json load_static_file req in
     (status res = 200 /\ field_value res AccessControlAllowOrigin = Some "*") \/
     (status res = 404 /\ field_value res ContentType = Some "text/plain" /\
      body res = "Not found: " ++ target req /\
      field_value res AccessControlAllowOrigin = None)) /\
  (let req := mkRequest "/unknown" 11 true in
   let o := oracle_handle_http_request "" "" req in
   let d := dex_handle_http_request "" "" (fun _ => None) req in
   status o = 404 /\ field_value o AccessControlAllowOrigin = None /\
   status d = 404 /\ field_value d AccessControlAllowOrigin = None).
Proof.
  split; [| split].
  - intros mt sj req. unfold oracle_handle_http_request.
    destruct (String.eqb (target req) "/healthz"); [left; split; reflexivity |].
    destruct (String.eqb (target req) "/metrics"); [left; split; reflexivity |].
    destruct (String.eqb (target req) "/oracle/snapshot"); [left; split; reflexivity |].
    right. repeat split.
  - intros mt sj load req. unfold dex_handle_http_request. cbv zeta.
    destruct (String.eqb (target req) "/healthz"); [left; split; reflexivity |].
    destruct (String.eqb (target req) "/metrics"); [left; split; reflexivity |].
    destruct (String.eqb (target req) "/prices/snapshot"); [left; split; reflexivity |].
    destruct (String.eqb (target req) "/" || String.eqb (target req) "/index.html");
      [destruct (load "index.html"); [left; split; reflexivity |] |];
    (destruct (String.eqb (target req) "/dual.html");
      [destruct (load "dual.html"); [left; split; reflexivity |] |]);
    (destruct (String.eqb (target req) "/debug.html");
      [destruct (load "debug.html"); [left; split; reflexivity |] |]);
    right; repeat split.
  - vm_compute. repeat split.
Qed.

(** * Extra properties: parse_bind_address *)

(** The string of a list of decimal digits. *)
Definition digits_string (ds : list Z) : string :=
  fold_right (fun d s => String (chr (Z.to_nat (48 + d))) s) EmptyString ds.

Definition digits_number (ds : list Z) : Z := fold_left (fun acc d => acc * 10 + d) ds 0.

Lemma find_char_colon_app (host rest : string) :
  find_char (chr 58) host = None ->
  find_char (chr 58) (host ++ String (chr 58) rest) = Some (String.length host).
Proof.
  induction host as [|c h IH]; intros H; cbn [find_char String.append String.length] in *;
    [rewrite Ascii.eqb_refl; reflexivity |].
  destruct (Ascii.eqb c (chr 58)); [discriminate |].
  destruct (find_char (chr 58) h); [discriminate |]. rewrite IH; reflexivity.
Qed.

Lemma substring_prefix (h t : string) : String.substring 0 (String.length h) (h ++ t) = h.
Proof. induction h as [|c h IH]; cbn; [destruct t; reflexivity | rewrite IH; reflexivity]. Qed.

Lemma substring_full (s : string) : String.substring 0 (String.length s) s = s.
Proof. induction s as [|c s IH]; cbn; [reflexivity | rewrite IH; reflexivity]. Qed.

Lemma str_length_app (a b : string) :
  String.length (a ++ b) = (String.length a + String.length b)%nat.
Proof. induction a as [|c a IH]; cbn; [reflexivity | rewrite IH; reflexivity]. Qed.

Lemma substr_from_after (h : string) (c : Ascii.ascii) (r : string) :
  substr_from (h ++ String c r) (S (String.length h)) = r.
Proof.
  unfold substr_from. rewrite str_length_app. cbn [String.length].
  replace (String.length h + S (String.length r) - S (String.length h))%nat
    with (String.length r) by lia.
  induction h as [|c' h IH]; cbn [String.append String.length String.substring].
  - apply substring_full.
  - exact IH.
Qed.

Lemma parse_bind_address_split (host rest : string) :
  find_char (chr 58) host = None ->
  parse_bind_address (host ++ String (chr 58) rest) =
    let* port := stoi rest in Ok (host, port mod 2 ^ 16).
Proof.
  intros H. unfold parse_bind_address. rewrite (find_char_colon_app host rest H).
  rewrite substring_prefix, substr_from_after. reflexivity.
Qed.

Lemma digit_value_chr (d : Z) : 0 <= d <= 9 -> digit_value (chr (Z.to_nat (48 + d))) = Some d.
Proof.
  intros H.
  assert (d = 0 \/ d = 1 \/ d = 2 \/ d = 3 \/ d = 4 \/ d = 5 \/ d = 6 \/ d = 7 \/ d = 8 \/ d = 9)
    as E by lia.
  repeat destruct E as [-> | E]; try reflexivity. subst. reflexivity.
Qed.

Lemma digits_from_string (ds : list Z) (rest : string) (acc : Z) :
  Forall (fun d => 0 <= d <= 9) ds ->
  (match rest with String c _ => digit_value c = None | EmptyString => True end) ->
  digits_from acc (digits_string ds ++ rest) = fold_left (fun a d => a * 10 + d) ds acc.
Proof.
  intros Hd Hr. revert acc. induction Hd as [|d ds Hd0 Hds IH]; intros acc.
  - cbn. destruct rest as [|c r]; cbn; [reflexivity | rewrite Hr; reflexivity].
  - cbn [digits_string fold_right String.append digits_from fold_left].
    rewrite (digit_value_chr d Hd0). apply IH.
Qed.

Lemma fold_digits_nonneg (ds : list Z) (acc : Z) :
  0 <= acc -> Forall (fun d => 0 <= d <= 9) ds ->
  0 <= fold_left (fun a d => a * 10 + d) ds acc.
Proof.
  intros Ha Hd. revert acc Ha. induction Hd as [|d ds Hd0 _ IH]; intros acc Ha; cbn.
  - exact Ha.
  - apply IH. lia.
Qed.

(** X1: [parse_bind_address] splits at the first ':'.  Without a ':' it
    throws [std::runtime_error("Invalid bind address format: " + addr)];
    otherwise the host is everything before the first ':' and the port is
    [std::stoi] of everything after it, cast to [uint16_t] (modulo 65536).
    So an address whose port part begins with ':' (an IPv6 literal such as
    "::1:8080") throws [std::invalid_argument]. *)
Theorem parse_bind_address_first_colon :
  (forall s, find_char (chr 58) s = None ->
     parse_bind_address s = Err (RuntimeError ("Invalid bind address format: " ++ s))) /\
  (forall host rest, find_char (chr 58) host = None ->
     parse_bind_address (host ++ String (chr 58) rest) =
       let* port := stoi rest in Ok (host, port mod 2 ^ 16)) /\
  (forall host rest, find_char (chr 58) host = None ->
     parse_bind_address (host ++ String (chr 58) (String (chr 58) rest)) = Err InvalidArgument).
Proof.
  split; [| split].
  - intros s H. unfold parse_bind_address. rewrite H. reflexivity.
  - exact parse_bind_address_split.
  - intros host rest H. rewrite (parse_bind_address_split host _ H). reflexivity.
Qed.

Lemma parse_bind_address_first_colon_witness :
  parse_bind_address "localhost" = Err (RuntimeError "Invalid bind address format: localhost") /\
  parse_bind_address ("" ++ String (chr 58) (String (chr 58) "1:8080")) = Err InvalidArgument.
Proof.
  destruct parse_bind_address_first_colon as [H1 [_ H3]].
  split; [apply H1; reflexivity | apply H3; reflexivity].
Defined.

(** X2: for a host without ':' and a port written as decimal digits
    (possibly followed by text that does not start with a digit, which
    [std::stoi] ignores), [parse_bind_address] returns the host and the
    port's value modulo 65536 when the value fits an [int], and throws
    [std::out_of_range] otherwise. *)
Theorem parse_bind_address_decimal_port (host rest : string) (ds : list Z) :
  find_char (chr 58) host = None ->
  ds <> [] -> Forall (fun d => 0 <= d <= 9) ds ->
  (match rest with String c _ => digit_value c = None | EmptyString => True end) ->
  parse_bind_address (host ++ String (chr 58) (digits_string ds ++ rest)) =
    if digits_number ds <? 2 ^ 31 then Ok (host, digits_number ds mod 2 ^ 16)
    else Err OutOfRange.
Proof.
  intros Hh Hne Hd Hr. rewrite (parse_bind_address_split host _ Hh).
  destruct ds as [|d ds]; [congruence |].
  inversion Hd as [|d' ds' Hd0 Hds]; subst.
  unfold stoi, digits_number.
  cbn [digits_string fold_right String.append skip_spaces].
  assert (Hsp : is_space (chr (Z.to_nat (48 + d))) = false).
  { assert (d = 0 \/ d = 1 \/ d = 2 \/ d = 3 \/ d = 4 \/ d = 5 \/ d = 6 \/ d = 7 \/ d = 8 \/ d = 9)
      as E by lia.
    repeat destruct E as [-> | E]; try reflexivity. subst. reflexivity. }
  assert (Hsg : Ascii.eqb (chr (Z.to_nat (48 + d))) (chr 45) = false /\
                Ascii.eqb (chr (Z.to_nat (48 + d))) (chr 43) = false).
  { assert (d = 0 \/ d = 1 \/ d = 2 \/ d = 3 \/ d = 4 \/ d = 5 \/ d = 6 \/ d = 7 \/ d = 8 \/ d = 9)
      as E by lia.
    repeat destruct E as [-> | E]; try (split; reflexivity). subst. split; reflexivity. }
  rewrite Hsp. destruct Hsg as [Hm Hp]. rewrite Hm, Hp.
  cbn [read_digits]. rewrite (digit_value_chr d Hd0).
  change (fold_right (fun d s => String (chr (Z.to_nat (48 + d))) s) EmptyString ds)
    with (digits_string ds).
  rewrite (digits_from_string ds rest d Hds Hr). cbn [fold_left].
  replace (0 * 10 + d) with d by lia.
  pose proof (fold_digits_nonneg ds d ltac:(lia) Hds) as N.
  destruct (fold_left (fun a d0 => a * 10 + d0) ds d <? 2 ^ 31) eqn:L.
  - assert (L2 : (- 2 ^ 31 <=? fold_left (fun a d0 => a * 10 + d0) ds d) = true)
      by (apply Z.leb_le; lia).
    rewrite L2. cbn. reflexivity.
  - rewrite andb_false_r. reflexivity.
Qed.

Lemma parse_bind_address_decimal_port_witness :
  parse_bind_address ("127.0.0.1" ++ String (chr 58) (digits_string [7; 0; 0; 0; 0] ++ "")) =
    Ok ("127.0.0.1", 4464).
Proof.
  refine (eq_trans (parse_bind_address_decimal_port "127.0.0.1" "" [7; 0; 0; 0; 0]
                      eq_refl ltac:(discriminate) _ I) _).
  - repeat constructor; lia.
  - reflexivity.
Defined.

(** * Extra properties: JSON of ticks, frames and snapshots *)

(** Removing a key from an object, as a client would receive a frame
    without that field. *)
Definition json_remove (k : string) (j : json) : json :=
  match j with
  | JObject kvs => JObject (filter (fun kv => negb (String.eqb (fst kv) k)) kvs)
  | _ => j
  end.

Definition price_keys : list string :=
  ["ts"; "pair"; "price"; "source"; "src_seq"; "delay_ms"; "stale"].

Lemma wrap32_small (z : Z) : 0 <= z < 2 ^ 32 -> wrap32 z = z.
Proof. intros H. unfold wrap32. apply Z.mod_small. exact H. Qed.

(** X3: decoding the JSON of a tick with [from_json] gives the tick back
    ([delay_ms] being a [uint32_t]). *)
Theorem price_json_round_trip (p : PriceMsg) :
  0 <= delay_ms p < 2 ^ 32 ->
  price_from_json (price_to_json p) = Ok p.
Proof.
  intros Hd. destruct p as [t pr pc src sq d st]. cbn in Hd.
  unfold price_from_json, price_to_json. cbn.
  rewrite (wrap32_small d Hd). destruct src; reflexivity.
Qed.

Lemma price_json_round_trip_witness :
  price_from_json (price_to_json (mkPriceMsg 1700000000000 "ETH/USD" 3500.25 Dex 7 42 false)) =
    Ok (mkPriceMsg 1700000000000 "ETH/USD" 3500.25 Dex 7 42 false).
Proof. apply price_json_round_trip. cbn. lia. Defined.

(** The members of a tick's JSON object, in the key order of the
    object's std::map. *)
Definition price_members (p : PriceMsg) : list (string * json) :=
  [("delay_ms", JUnsigned (delay_ms p)); ("pair", JString (pair p));
   ("price", JFloat (price p)); ("source", JString (source_name (source p)));
   ("src_seq", JUnsigned (src_seq p)); ("stale", JBool (stale p));
   ("ts", JUnsigned (ts p))].

(** X4: a tick's JSON object has exactly the seven members ts, pair, price,
    source, src_seq, delay_ms and stale; the WebSocket price frame is that
    object with the one member "type": "price" added, and still decodes to
    the tick.  The subscription frame is exactly {"id", "status", "type":
    "subscription"}, and decoding it as a tick throws out_of_range for the
    missing key "ts". *)
Theorem ws_frame_kinds :
  (forall p : PriceMsg,
     price_to_json p = JObject (price_members p) /\
     ws_message_json (WsPrice p) =
       Ok (JObject (price_members p ++ [("type", JString "price")]))) /\
  (forall p : PriceMsg, 0 <= delay_ms p < 2 ^ 32 ->
     bind (ws_message_json (WsPrice p)) price_from_json = Ok p) /\
  (forall s : SubscriptionMsg,
     ws_message_json (WsSubscription s) =
       Ok (JObject [("id", JString (sub_id s)); ("status", JString (sub_status s));
                    ("type", JString "subscription")]) /\
     bind (ws_message_json (WsSubscription s)) price_from_json = Err (KeyNotFound "ts")).
Proof.
  split; [| split].
  - intros [t pr pc src sq d st]. split; reflexivity.
  - intros [t pr pc src sq d st] Hd. cbn in Hd |- *.
    rewrite (wrap32_small d Hd). destruct src; reflexivity.
  - intros [i s]. split; reflexivity.
Qed.

Lemma ws_frame_kinds_witness :
  bind (ws_message_json (WsPrice (mkPriceMsg 5 "ETH/USD" 3500 Chainlink 1 0 false)))
    price_from_json = Ok (mkPriceMsg 5 "ETH/USD" 3500 Chainlink 1 0 false).
Proof. apply (proj1 (proj2 ws_frame_kinds)). cbn. lia. Defined.

(** X5: decoding a tick's JSON from which one field is missing throws
    out_of_range naming that field; a field holding a string where a number
    or a boolean is expected throws type_error 302. *)
Theorem price_from_json_errors (p : PriceMsg) :
  0 <= delay_ms p < 2 ^ 32 ->
  (forall k, In k price_keys ->
     price_from_json (json_remove k (price_to_json p)) = Err (KeyNotFound k)) /\
  (forall k s, In k ["ts"; "price"; "src_seq"; "delay_ms"; "stale"] ->
     bind (json_set k (JString s) (price_to_json p)) price_from_json = Err (TypeError 302)).
Proof.
  intros Hd. destruct p as [t pr pc src sq d st]. cbn in Hd.
  split.
  - intros k Hk. repeat destruct Hk as [<- | Hk];
      try (cbn; rewrite ?(wrap32_small d Hd); reflexivity). destruct Hk.
  - intros k s Hk. repeat destruct Hk as [<- | Hk];
      try (cbn; rewrite ?(wrap32_small d Hd); reflexivity). destruct Hk.
Qed.

Lemma price_from_json_errors_witness :
  price_from_json (json_remove "stale" (price_to_json (mkPriceMsg 5 "ETH/USD" 3500 Dex 1 0 false)))
    = Err (KeyNotFound "stale").
Proof.
  apply (proj1 (price_from_json_errors (mkPriceMsg 5 "ETH/USD" 3500 Dex 1 0 false) ltac:(cbn; lia))).
  cbn. tauto.
Defined.

(** * Extra properties: the fields of generated ticks *)

Lemma next_tick_fields (P : Platform) (e : GbmPriceEngine P) t seq src d st :
  let m := fst (next_tick e t seq src d st) in
  ts m = t /\ pair m = pair_ e /\ source m = src /\ src_seq m = seq /\
  delay_ms m = d /\ stale m = st.
Proof.
  unfold next_tick. destruct (normal_draw P (normal_ e) (rng_ e)) as [[z n'] g'].
  cbn. repeat split.
Qed.

Lemma dex_generate_msg (P : Platform) config (st : DexTicker P) clk :
  let m := fst (fst (dex_generate config st clk)) in
  (exists r2 : Mt P, delay_ms m =
     wrap32 (fst (sample_range r2 (min (dex_latency_ms config)) (max (dex_latency_ms config))))) /\
  stale m = (dex_stale_after_ms config <? wrap64 (elapsed_ms (now clk) (dx_last_tick_time st))) /\
  ts m = wall_ms clk /\ source m = Dex.
Proof.
  unfold dex_generate.
  destruct (sample_range (dx_rng st) _ _) as [tick_ms r1].
  destruct (if dex_burst_mode config then _ else _) as [t r2].
  destruct (sample_range r2 _ _) as [d r3] eqn:E.
  match goal with |- context [next_tick ?e ?a ?b ?c ?d ?f] =>
    pose proof (next_tick_fields P e a b c d f) as H; destruct (next_tick e a b c d f)
  end.
  cbn in H |- *. destruct H as [H1 [_ [H3 [_ [H5 H6]]]]].
  split; [exists r2; rewrite E; exact H5 | tauto].
Qed.

Lemma oracle_generate_msg (P : Platform) config (st : OracleTicker P) clk :
  let m := fst (fst (oracle_generate config st clk)) in
  (exists r1 : Mt P, delay_ms m =
     wrap32 (fst (sample_range r1 (min (oracle_ws_jitter_ms config))
                                  (max (oracle_ws_jitter_ms config))))) /\
  stale m = (oracle_stale_after_ms config <? wrap64 (elapsed_ms (now clk) (or_last_tick_time st))) /\
  ts m = wall_ms clk /\ source m = Chainlink.
Proof.
  unfold oracle_generate.
  destruct (sample_range (or_rng st) _ _) as [tick_ms r1].
  destruct (sample_range r1 _ _) as [d r2] eqn:E.
  match goal with |- context [next_tick ?e ?a ?b ?c ?d ?f] =>
    pose proof (next_tick_fields P e a b c d f) as H; destruct (next_tick e a b c d f)
  end.
  cbn in H |- *. destruct H as [H1 [_ [H3 [_ [H5 H6]]]]].
  split; [exists r1; rewrite E; exact H5 | tauto].
Qed.

Lemma wrap32_range (z : Z) : 0 <= wrap32 z < 2 ^ 32.
Proof. unfold wrap32. apply Z.mod_pos_bound. lia. Qed.

(** Each iteration's frames are its generated tick. *)
Lemma dex_step_frames_msg (P : Platform) config (st : DexTicker P) clk :
  Forall (fun m => m = fst (fst (dex_generate config st clk))) (snd (dex_step config st clk)).
Proof.
  unfold dex_step. destruct (dex_generate config st clk) as [[msg e'] r3].
  destruct (happens r3 _) as [[] r4]; cbn; [constructor |].
  destruct (happens r4 _) as [[] r5]; cbn; repeat constructor.
Qed.

Lemma oracle_step_frames_msg (P : Platform) config (st : OracleTicker P) clk :
  Forall (fun m => m = oracle_tick_msg config st clk) (snd (oracle_step config st clk)).
Proof.
  unfold oracle_step, oracle_tick_msg. destruct (oracle_generate config st clk) as [[msg e'] r2].
  cbn [fst]. destruct (should_publish _ _ _ _ _ _); cbn; [| constructor].
  destruct (happens r2 _) as [[] r3]; cbn; [constructor |].
  destruct (happens r3 _) as [[] r4]; cbn; repeat constructor.
Qed.

Definition last_frame (frames : list PriceMsg) (d : option PriceMsg) : option PriceMsg :=
  fold_left (fun _ m => Some m) frames d.

Section RunFrames.
Variable S : Type.
Variable step : S -> Clock -> S * list PriceMsg.

Lemma loop_frames_forall (Q : PriceMsg -> Prop) :
  (forall st clk, Forall Q (snd (step st clk))) ->
  forall clocks st, Forall Q (List.concat (snd (ticker_loop step st clocks))).
Proof.
  intros H clocks. induction clocks as [|clk rest IH]; intros st; cbn; [constructor |].
  pose proof (H st clk) as Hs. destruct (step st clk) as [st1 sent].
  specialize (IH st1). destruct (ticker_loop step st1 rest) as [st2 groups].
  cbn in *. apply Forall_app. split; assumption.
Qed.

Variable last_of : S -> option PriceMsg.
Hypothesis step_last : forall st clk,
  last_of (fst (step st clk)) = last_frame (snd (step st clk)) (last_of st).

Lemma loop_last_price (clocks : list Clock) (st : S) :
  last_of (fst (ticker_loop step st clocks)) =
  last_frame (List.concat (snd (ticker_loop step st clocks))) (last_of st).
Proof.
  revert st. induction clocks as [|clk rest IH]; intros st; cbn; [reflexivity |].
  pose proof (step_last st clk) as H. destruct (step st clk) as [st1 sent]. cbn in H.
  specialize (IH st1). destruct (ticker_loop step st1 rest) as [st2 groups].
  cbn in *. rewrite IH, H. unfold last_frame. rewrite fold_left_app. reflexivity.
Qed.
End RunFrames.

Lemma dex_step_last (P : Platform) config (st : DexTicker P) clk :
  dx_last_price (fst (dex_step config st clk)) =
  last_frame (snd (dex_step config st clk)) (dx_last_price st).
Proof.
  unfold dex_step. destruct (dex_generate config st clk) as [[msg e'] r3].
  destruct (happens r3 _) as [[] r4]; cbn; [reflexivity |].
  destruct (happens r4 _) as [[] r5]; reflexivity.
Qed.

Lemma oracle_step_last (P : Platform) config (st : OracleTicker P) clk :
  or_last_price (fst (oracle_step config st clk)) =
  last_frame (snd (oracle_step config st clk)) (or_last_price st).
Proof.
  unfold oracle_step. destruct (oracle_generate config st clk) as [[msg e'] r2].
  destruct (should_publish _ _ _ _ _ _); cbn; [| reflexivity].
  destruct (happens r2 _) as [[] r3]; cbn; [reflexivity |].
  destruct (happens r3 _) as [[] r4]; reflexivity.
Qed.

(** X6: after any run of either ticker, the last price the server holds
    ([get_last_price()], served by the snapshot endpoint) is the last frame
    broadcast during the run, or the one it held before if the run broadcast
    nothing: dropped ticks and ticks rejected by the Oracle gate never
    become the last price. *)
Theorem last_price_is_last_frame (P : Platform) :
  (forall config (st : DexTicker P) clocks,
     dx_last_price (fst (dex_run config st clocks)) =
     last_frame (List.concat (snd (dex_run config st clocks))) (dx_last_price st)) /\
  (forall config (st : OracleTicker P) clocks,
     or_last_price (fst (oracle_run config st clocks)) =
     last_frame (List.concat (snd (oracle_run config st clocks))) (or_last_price st)).
Proof.
  split; intros config st clocks.
  - apply (loop_last_price _ (dex_step config) dx_last_price (dex_step_last P config)).
  - apply (loop_last_price _ (oracle_step config) or_last_price (oracle_step_last P config)).
Qed.

(** * Extra properties: the snapshot endpoints *)

(** A client reading the "prices" array of a snapshot with [from_json]. *)
Definition decode_snapshot_prices (j : json) : result (list PriceMsg) :=
  let* arr := json_at "prices" j in
  match arr with
  | JArray xs =>
      fold_right (fun x acc => let* p := price_from_json x in let* ps := acc in Ok (p :: ps))
        (Ok []) xs
  | _ => Err (TypeError 302)
  end.

Lemma price_from_to_json (p : PriceMsg) :
  0 <= delay_ms p < 2 ^ 32 -> price_from_json (price_to_json p) = Ok p.
Proof.
  intros Hd. destruct p as [t pr pc src sq d st]. cbn in Hd.
  unfold price_from_json, price_to_json. cbn.
  rewrite (wrap32_small d Hd). destruct src; reflexivity.
Qed.

Lemma last_frame_forall (Q : PriceMsg -> Prop) (l : list PriceMsg) (d : option PriceMsg) :
  Forall Q l -> (d = None \/ exists m, d = Some m /\ Q m) ->
  last_frame l d = None \/ exists m, last_frame l d = Some m /\ Q m.
Proof.
  intros Hl. revert d. induction Hl as [|x l Hx _ IH]; intros d Hd; [exact Hd |].
  apply IH. right. exists x. split; [reflexivity | exact Hx].
Qed.

Lemma snapshot_decodes (lp : option PriceMsg) (t : Z) :
  (lp = None \/ exists m, lp = Some m /\ 0 <= delay_ms m < 2 ^ 32) ->
  decode_snapshot_prices (snapshot_to_json (handler_snapshot lp t)) =
    Ok (match lp with Some m => [m] | None => [] end) /\
  json_at "server_time" (snapshot_to_json (handler_snapshot lp t)) = Ok (JUnsigned t).
Proof.
  intros [-> | [m [-> Hm]]]; [split; reflexivity |].
  split; [| reflexivity].
  unfold decode_snapshot_prices. cbn [snapshot_to_json handler_snapshot prices map].
  cbn - [price_to_json price_from_json]. rewrite (price_from_to_json m Hm). reflexivity.
Qed.

Lemma dex_frames_delay (P : Platform) config (st : DexTicker P) clocks :
  Forall (fun m => 0 <= delay_ms m < 2 ^ 32) (List.concat (snd (dex_run config st clocks))).
Proof.
  apply loop_frames_forall. intros st1 clk.
  pose proof (dex_step_frames_msg P config st1 clk) as F.
  destruct (dex_generate_msg P config st1 clk) as [[r2 Hd] _].
  eapply Forall_impl; [| exact F]. intros m ->. rewrite Hd. apply wrap32_range.
Qed.

Lemma oracle_frames_delay (P : Platform) config (st : OracleTicker P) clocks :
  Forall (fun m => 0 <= delay_ms m < 2 ^ 32) (List.concat (snd (oracle_run config st clocks))).
Proof.
  apply loop_frames_forall. intros st1 clk.
  pose proof (oracle_step_frames_msg P config st1 clk) as F.
  destruct (oracle_generate_msg P config st1 clk) as [[r1 Hd] _].
  eapply Forall_impl; [| exact F]. intros m ->. unfold oracle_tick_msg. rewrite Hd.
  apply wrap32_range.
Qed.

(** X7: after a run of either ticker started with no last price, the
    snapshot endpoint's JSON has "server_time" the time it was taken and a
    "prices" array that a client decoding it with [from_json] reads as
    exactly the last frame broadcast during the run, or as empty if the run
    broadcast nothing. *)
Theorem snapshot_after_run (P : Platform) (t : Z) :
  (forall config (st : DexTicker P) clocks,
     dx_last_price st = None ->
     let snap := snapshot_to_json
                   (handler_snapshot (dx_last_price (fst (dex_run config st clocks))) t) in
     decode_snapshot_prices snap =
       Ok (match last_frame (List.concat (snd (dex_run config st clocks))) None with
           | Some m => [m] | None => [] end) /\
     json_at "server_time" snap = Ok (JUnsigned t)) /\
  (forall config (st : OracleTicker P) clocks,
     or_last_price st = None ->
     let snap := snapshot_to_json
                   (handler_snapshot (or_last_price (fst (oracle_run config st clocks))) t) in
     decode_snapshot_prices snap =
       Ok (match last_frame (List.concat (snd (oracle_run config st clocks))) None with
           | Some m => [m] | None => [] end) /\
     json_at "server_time" snap = Ok (JUnsigned t)).
Proof.
  split; intros config st clocks H0; cbv zeta; unfold dex_run, oracle_run.
  - rewrite (loop_last_price _ (dex_step config) dx_last_price (dex_step_last P config)), H0.
    apply snapshot_decodes. apply last_frame_forall; [apply dex_frames_delay | left; reflexivity].
  - rewrite (loop_last_price _ (oracle_step config) or_last_price (oracle_step_last P config)), H0.
    apply snapshot_decodes.
    apply last_frame_forall; [apply oracle_frames_delay | left; reflexivity].
Qed.

Lemma snapshot_after_run_witness :
  decode_snapshot_prices
    (snapshot_to_json (handler_snapshot
       (dx_last_price (fst (dex_run (demo_dex_config 0 0) demo_dex_state demo_clocks))) 7)) =
  Ok (match last_frame (List.concat (snd (dex_run (demo_dex_config 0 0) demo_dex_state demo_clocks)))
            None with Some m => [m] | None => [] end) /\
  json_at "server_time"
    (snapshot_to_json (handler_snapshot
       (dx_last_price (fst (dex_run (demo_dex_config 0 0) demo_dex_state demo_clocks))) 7)) =
  Ok (JUnsigned 7).
Proof. exact (proj1 (snapshot_after_run toyP 7) (demo_dex_config 0 0) demo_dex_state demo_clocks eq_refl). Defined.

(** * Extra properties: delays and staleness of generated ticks *)

Lemma sample_range_bounds (P : Platform) (rng : Mt P) (a b : Z) :
  (forall lo hi g, lo < hi -> lo <= fst (uniform_int P lo hi g) <= hi) ->
  a <= b -> a <= fst (sample_range rng a b) <= b.
Proof.
  intros Hu Hab. unfold sample_range. destruct (b <=? a) eqn:E.
  - apply Z.leb_le in E. cbn. lia.
  - apply Z.leb_gt in E. apply Hu. exact E.
Qed.

Lemma sample_range_degenerate (P : Platform) (rng : Mt P) (a b : Z) :
  b <= a -> fst (sample_range rng a b) = a.
Proof.
  intros H. unfold sample_range. apply Z.leb_le in H. rewrite H. reflexivity.
Qed.

(** X8: when the platform's [uniform_int_distribution] stays within its
    bounds, the [delay_ms] of every DEX tick lies in
    [[dex_latency_ms.min, dex_latency_ms.max]] and that of every Oracle tick
    in [[oracle_ws_jitter_ms.min, oracle_ws_jitter_ms.max]] when
    min <= max < 2^32; when max <= min the delay is min cast to
    [uint32_t]. *)
Theorem tick_delay_in_range (P : Platform) :
  (forall lo hi g, lo < hi -> lo <= fst (uniform_int P lo hi g) <= hi) ->
  (forall config (st : DexTicker P) clk,
     let lat := dex_latency_ms config in
     let d := delay_ms (fst (fst (dex_generate config st clk))) in
     (0 <= min lat <= max lat -> max lat < 2 ^ 32 -> min lat <= d <= max lat) /\
     (max lat <= min lat -> d = wrap32 (min lat))) /\
  (forall config (st : OracleTicker P) clk,
     let jit := oracle_ws_jitter_ms config in
     let d := delay_ms (oracle_tick_msg config st clk) in
     (0 <= min jit <= max jit -> max jit < 2 ^ 32 -> min jit <= d <= max jit) /\
     (max jit <= min jit -> d = wrap32 (min jit))).
Proof.
  intros Hu. split; intros config st clk; cbv zeta.
  - destruct (dex_generate_msg P config st clk) as [[r2 Hd] _]. rewrite Hd.
    split.
    + intros H1 H2. pose proof (sample_range_bounds P r2 _ _ Hu (proj2 H1)) as B.
      rewrite wrap32_small by lia. exact B.
    + intros H. rewrite sample_range_degenerate by exact H. reflexivity.
  - unfold oracle_tick_msg.
    destruct (oracle_generate_msg P config st clk) as [[r1 Hd] _]. rewrite Hd.
    split.
    + intros H1 H2. pose proof (sample_range_bounds P r1 _ _ Hu (proj2 H1)) as B.
      rewrite wrap32_small by lia. exact B.
    + intros H. rewrite sample_range_degenerate by exact H. reflexivity.
Qed.

Lemma tick_delay_in_range_witness :
  let d := delay_ms (fst (fst (dex_generate (demo_dex_config 0 0) demo_dex_state (demo_clock 100)))) in
  0 <= d <= 10.
Proof.
  refine (proj1 (proj1 (tick_delay_in_range toyP _) (demo_dex_config 0 0) demo_dex_state
                  (demo_clock 100)) _ _); cbn; intros; lia.
Defined.

Lemma dex_step_last_tick_time (P : Platform) config (st : DexTicker P) clk :
  dx_last_tick_time (fst (dex_step config st clk)) = now clk.
Proof.
  unfold dex_step. destruct (dex_generate config st clk) as [[msg e'] r3].
  destruct (happens r3 _) as [[] r4]; cbn; [reflexivity |].
  destruct (happens r4 _) as [[] r5]; reflexivity.
Qed.

Lemma oracle_step_last_tick_time (P : Platform) config (st : OracleTicker P) clk :
  or_last_tick_time (fst (oracle_step config st clk)) = now clk.
Proof.
  unfold oracle_step. destruct (oracle_generate config st clk) as [[msg e'] r2].
  destruct (should_publish _ _ _ _ _ _); cbn; [| reflexivity].
  destruct (happens r2 _) as [[] r3]; cbn; [reflexivity |].
  destruct (happens r3 _) as [[] r4]; reflexivity.
Qed.

Lemma elapsed_small (a b : Z) :
  0 <= a - b < 2 ^ 63 -> wrap64 (elapsed_ms a b) = (a - b) / 1000000.
Proof.
  intros H. unfold wrap64, elapsed_ms. rewrite Z.quot_div_nonneg by lia.
  apply Z.mod_small. split; [apply Z.div_pos; lia |].
  apply Z.div_lt_upper_bound; lia.
Qed.

(** X9: in both tickers the stale flag of a tick compares
    [stale_after_ms] with the whole milliseconds of steady-clock time since
    the previous iteration, whatever that iteration did (dropped its tick,
    or, in the Oracle, had it rejected by the gate): for two successive
    iterations at steady-clock readings [t1 <= t2] (nanoseconds, less than
    2^63 apart) the second tick is stale exactly when
    (t2 - t1) / 10^6 > stale_after_ms. *)
Theorem stale_since_previous_iteration (P : Platform) :
  (forall config (st : DexTicker P) clk1 clk2,
     0 <= now clk2 - now clk1 < 2 ^ 63 ->
     stale (fst (fst (dex_generate config (fst (dex_step config st clk1)) clk2))) =
       (dex_stale_after_ms config <? (now clk2 - now clk1) / 1000000)) /\
  (forall config (st : OracleTicker P) clk1 clk2,
     0 <= now clk2 - now clk1 < 2 ^ 63 ->
     stale (oracle_tick_msg config (fst (oracle_step config st clk1)) clk2) =
       (oracle_stale_after_ms config <? (now clk2 - now clk1) / 1000000)).
Proof.
  split; intros config st clk1 clk2 H.
  - destruct (dex_generate_msg P config (fst (dex_step config st clk1)) clk2) as [_ [Hs _]].
    rewrite Hs, dex_step_last_tick_time, elapsed_small by exact H. reflexivity.
  - unfold oracle_tick_msg.
    destruct (oracle_generate_msg P config (fst (oracle_step config st clk1)) clk2) as [_ [Hs _]].
    rewrite Hs, oracle_step_last_tick_time, elapsed_small by exact H. reflexivity.
Qed.

Lemma stale_since_previous_iteration_witness :
  stale (oracle_tick_msg (demo_oracle_config 0)
           (fst (oracle_step (demo_oracle_config 0) demo_oracle_published (demo_clock 100)))
           (demo_clock 1200)) = (1000 <? 1100).
Proof.
  exact (proj2 (stale_since_previous_iteration toyP) (demo_oracle_config 0) demo_oracle_published
           (demo_clock 100) (demo_clock 1200) ltac:(cbn; lia)).
Defined.

(** * Extra properties: HTTP responses *)

Ltac http_fin :=
  cbn; repeat split;
  first [ reflexivity | left; reflexivity | right; left; reflexivity
        | right; right; reflexivity | right; reflexivity ].

(** X10: every response of either server echoes the request's HTTP version
    and keep-alive setting and carries the server's name ("oracle-sim" or
    "dex-sim") in the Server field and a Content-Type of text/plain,
    application/json or text/html. *)
Theorem http_response_common_fields :
  (forall metrics_text snapshot_json req,
     let res := oracle_handle_http_request metrics_text snapshot_json req in
     res_version res = version req /\ keep_alive res = req_keep_alive req /\
     field_value res Server = Some "oracle-sim" /\
     (field_value res ContentType = Some "text/plain" \/
      field_value res ContentType = Some "application/json")) /\
  (forall metrics_text snapshot_json load_static_file req,
     let res := dex_handle_http_request metrics_text snapshot_json load_static_file req in
     res_version res = version req /\ keep_alive res = req_keep_alive req /\
     field_value res Server = Some "dex-sim" /\
     (field_value res ContentType = Some "text/plain" \/
      field_value res ContentType = Some "application/json" \/
      field_value res ContentType = Some "text/html")).
Proof.
  split.
  - intros mt sj req. unfold oracle_handle_http_request.
    destruct (String.eqb (target req) "/healthz"); [http_fin |].
    destruct (String.eqb (target req) "/metrics"); [http_fin |].
    destruct (String.eqb (target req) "/oracle/snapshot"); http_fin.
  - intros mt sj load req. unfold dex_handle_http_request. cbv zeta.
    destruct (String.eqb (target req) "/healthz"); [http_fin |].
    destruct (String.eqb (target req) "/metrics"); [http_fin |].
    destruct (String.eqb (target req) "/prices/snapshot"); [http_fin |].
    destruct (String.eqb (target req) "/" || String.eqb (target req) "/index.html");
      [destruct (load "index.html"); [http_fin |] |];
    (destruct (String.eqb (target req) "/dual.html");
      [destruct (load "dual.html"); [http_fin |] |]);
    (destruct (String.eqb (target req) "/debug.html");
      [destruct (load "debug.html"); [http_fin |] |]);
    http_fin.
Qed.

Definition oracle_api_route (t : string) : bool :=
  String.eqb t "/healthz" || String.eqb t "/metrics" || String.eqb t "/oracle/snapshot".

Definition dex_api_route (t : string) : bool :=
  String.eqb t "/healthz" || String.eqb t "/metrics" || String.eqb t "/prices/snapshot".

(** The static file a DEX target names. *)
Definition dex_static_file (t : string) : option string :=
  if String.eqb t "/" || String.eqb t "/index.html" then Some "index.html"
  else if String.eqb t "/dual.html" then Some "dual.html"
  else if String.eqb t "/debug.html" then Some "debug.html"
  else None.

Ltac http_route_fin :=
  repeat match goal with
  | |- _ /\ _ => split
  | |- _ -> _ => intro
  | |- forall _, _ => intro
  end;
  cbn in *; subst;
  repeat match goal with
  | H : Some _ = Some _ |- _ => injection H as H; subst
  | H : forall f, Some ?g = Some f -> _ |- _ => specialize (H g eq_refl)
  | H : ?l ?g = _ |- context [?l ?g] => is_var l; rewrite H
  end;
  cbn in *; try discriminate; try reflexivity.

Ltac route_case t s :=
  let N := fresh "N" in
  destruct (String.eqb_spec t s) as [-> | N];
  [ http_route_fin | apply String.eqb_neq in N; rewrite ?N ].

(** X11: the routes, matched against the whole request target (a query
    string makes the target unknown).  The Oracle answers /healthz ("OK",
    text/plain), /metrics (the Prometheus text, text/plain) and
    /oracle/snapshot (the snapshot JSON, application/json) with 200 and
    every other target with 404 "Not found: <target>".  The DEX server
    answers /healthz, /metrics and /prices/snapshot the same way; /,
    /index.html, /dual.html and /debug.html with 200 and the content of
    static/index.html, static/dual.html or static/debug.html as text/html
    when that file can be read, and with 404 "Not found: <target>" when it
    cannot; every other target gets that 404. *)
Theorem http_routes :
  (forall metrics_text snapshot_json (t : string) v ka,
     let res := oracle_handle_http_request metrics_text snapshot_json (mkRequest t v ka) in
     (t = "/healthz" -> status res = 200 /\ body res = "OK" /\
        field_value res ContentType = Some "text/plain") /\
     (t = "/metrics" -> status res = 200 /\ body res = metrics_text /\
        field_value res ContentType = Some "text/plain") /\
     (t = "/oracle/snapshot" -> status res = 200 /\ body res = snapshot_json /\
        field_value res ContentType = Some "application/json") /\
     (oracle_api_route t = false -> status res = 404 /\ body res = "Not found: " ++ t)) /\
  (forall metrics_text snapshot_json load_static_file (t : string) v ka,
     let res := dex_handle_http_request metrics_text snapshot_json load_static_file
                  (mkRequest t v ka) in
     (t = "/healthz" -> status res = 200 /\ body res = "OK" /\
        field_value res ContentType = Some "text/plain") /\
     (t = "/metrics" -> status res = 200 /\ body res = metrics_text /\
        field_value res ContentType = Some "text/plain") /\
     (t = "/prices/snapshot" -> status res = 200 /\ body res = snapshot_json /\
        field_value res ContentType = Some "application/json") /\
     (forall f c, dex_static_file t = Some f -> load_static_file f = Some c ->
        status res = 200 /\ body res = c /\ field_value res ContentType = Some "text/html") /\
     (dex_api_route t = false ->
      (forall f, dex_static_file t = Some f -> load_static_file f = None) ->
      status res = 404 /\ body res = "Not found: " ++ t)).
Proof.
  split.
  - intros mt sj t v ka. cbv zeta.
    unfold oracle_handle_http_request, oracle_api_route. cbn [target].
    route_case t "/healthz". route_case t "/metrics". route_case t "/oracle/snapshot".
    http_route_fin.
  - intros mt sj load t v ka. cbv zeta.
    unfold dex_handle_http_request, dex_api_route, dex_static_file. cbn [target].
    route_case t "/healthz". route_case t "/metrics". route_case t "/prices/snapshot".
    route_case t "/". route_case t "/index.html". route_case t "/dual.html".
    route_case t "/debug.html".
    http_route_fin.
Qed.

(** X11 at concrete requests: /dual.html is served when static/dual.html is
    readable, /debug.html is a 404 when static/debug.html is not, and a
    query string after /healthz makes the Oracle answer 404. *)
Lemma http_routes_witness :
  let load := fun f => if String.eqb f "dual.html" then Some "<p>dual</p>" else None in
  (status (dex_handle_http_request "m" "s" load (mkRequest "/dual.html" 11 true)) = 200 /\
   body (dex_handle_http_request "m" "s" load (mkRequest "/dual.html" 11 true))
     = "<p>dual</p>") /\
  (status (dex_handle_http_request "m" "s" load (mkRequest "/debug.html" 11 true)) = 404 /\
   body (dex_handle_http_request "m" "s" load (mkRequest "/debug.html" 11 true))
     = "Not found: /debug.html") /\
  (status (oracle_handle_http_request "m" "s" (mkRequest "/healthz?x=1" 11 true)) = 404 /\
   body (oracle_handle_http_request "m" "s" (mkRequest "/healthz?x=1" 11 true))
     = "Not found: /healthz?x=1").
Proof.
  cbv zeta. destruct http_routes as [O D]. split; [| split].
  - destruct (proj1 (proj2 (proj2 (proj2
      (D "m" "s" (fun f => if String.eqb f "dual.html" then Some "<p>dual</p>" else None)
         "/dual.html" 11 true)))) "dual.html" "<p>dual</p>" eq_refl eq_refl) as [S [B _]].
    split; [exact S | exact B].
  - destruct (proj2 (proj2 (proj2 (proj2
      (D "m" "s" (fun f => if String.eqb f "dual.html" then Some "<p>dual</p>" else None)
         "/debug.html" 11 true)))) eq_refl) as [S B].
    + intros f Hf. vm_compute in Hf. injection Hf as <-. reflexivity.
    + split; [exact S | exact B].
  - destruct (proj2 (proj2 (proj2 (O "m" "s" "/healthz?x=1" 11 true))) eq_refl) as [S B].
    split; [exact S | exact B].
Defined.

(** * Extra properties: counters along a run *)

(** The counters' invariant: every generated tick was either sent or
    dropped, and a duplicate is only sent after a send. *)
Definition metrics_inv (m : Metrics) : Prop :=
  0 <= ws_frames_sent m /\ 0 <= ws_frames_dropped m /\ 0 <= ws_frames_duplicated m /\
  ws_frames_duplicated m <= ws_frames_sent m /\
  price_ticks_generated m = ws_frames_sent m + ws_frames_dropped m.

(** How one iteration that generates a tick changes the counters: dropped,
    sent once, or sent and duplicated. *)
Definition step_ok (m m' : Metrics) (sent : list PriceMsg) : Prop :=
  price_ticks_generated m' = incr (price_ticks_generated m) /\
  ((sent = [] /\ ws_frames_sent m' = ws_frames_sent m /\
    ws_frames_dropped m' = incr (ws_frames_dropped m) /\
    ws_frames_duplicated m' = ws_frames_duplicated m) \/
   (List.length sent = 1%nat /\ ws_frames_sent m' = incr (ws_frames_sent m) /\
    ws_frames_dropped m' = ws_frames_dropped m /\
    ws_frames_duplicated m' = ws_frames_duplicated m) \/
   (List.length sent = 2%nat /\ ws_frames_sent m' = incr (ws_frames_sent m) /\
    ws_frames_dropped m' = ws_frames_dropped m /\
    ws_frames_duplicated m' = incr (ws_frames_duplicated m))).

Section RunMetrics.
Variable S : Type.
Variable step : S -> Clock -> S * list PriceMsg.
Variable met : S -> Metrics.
Variable Inv : S -> Prop.
Variable may_skip : bool.
Hypothesis inv_step : forall st clk, Inv st -> Inv (fst (step st clk)).
Hypothesis step_metrics : forall st clk, Inv st ->
  (may_skip = true /\ met (fst (step st clk)) = met st /\ snd (step st clk) = []) \/
  step_ok (met st) (met (fst (step st clk))) (snd (step st clk)).

Lemma loop_metrics (clocks : list Clock) : forall st,
  Inv st -> metrics_inv (met st) ->
  price_ticks_generated (met st) + Z.of_nat (List.length clocks) < 2 ^ 64 ->
  let m0 := met st in
  let m := met (fst (ticker_loop step st clocks)) in
  let n := Z.of_nat (List.length clocks) in
  Inv (fst (ticker_loop step st clocks)) /\ metrics_inv m /\
  price_ticks_generated m0 <= price_ticks_generated m <= price_ticks_generated m0 + n /\
  (may_skip = false -> price_ticks_generated m = price_ticks_generated m0 + n) /\
  ws_frames_sent m + ws_frames_duplicated m =
    ws_frames_sent m0 + ws_frames_duplicated m0 +
    Z.of_nat (List.length (List.concat (snd (ticker_loop step st clocks)))).
Proof.
  induction clocks as [|clk rest IH]; intros st Hi Hm Hb; cbv zeta.
  - cbn. rewrite !Z.add_0_r. split; [exact Hi | split; [exact Hm |]]. repeat split; intros; lia.
  - cbn [List.length] in Hb |- *. rewrite Nat2Z.inj_succ in Hb |- *.
    cbn [ticker_loop].
    pose proof (inv_step st clk Hi) as Hi1.
    pose proof (step_metrics st clk Hi) as Hs.
    destruct (step st clk) as [st1 sent] eqn:E. cbn [fst snd] in Hi1, Hs.
    destruct Hm as (Hs0 & Hd0 & Hu0 & Hus & Hg).
    assert (Hm1 : metrics_inv (met st1) /\
                  price_ticks_generated (met st) <= price_ticks_generated (met st1)
                    <= price_ticks_generated (met st) + 1 /\
                  (may_skip = false ->
                   price_ticks_generated (met st1) = price_ticks_generated (met st) + 1) /\
                  ws_frames_sent (met st1) + ws_frames_duplicated (met st1) =
                    ws_frames_sent (met st) + ws_frames_duplicated (met st) +
                    Z.of_nat (List.length sent)).
    { destruct Hs as [(Hk & Heq & Hsent) | (Hg1 & Hc)].
      - rewrite Heq, Hsent. unfold metrics_inv. cbn. rewrite Hk.
        repeat split; try lia; discriminate.
      - unfold metrics_inv, incr, wrap64 in *.
        rewrite Hg1. rewrite Z.mod_small in Hg1 |- * by lia.
        destruct Hc as [(-> & E1 & E2 & E3) | [(L & E1 & E2 & E3) | (L & E1 & E2 & E3)]];
          rewrite ?L; rewrite E1, E2, E3; rewrite ?Z.mod_small by lia; cbn;
          repeat split; lia. }
    destruct Hm1 as (Hm1 & Hg1 & Hns1 & Hsd1).
    specialize (IH st1 Hi1 Hm1 ltac:(lia)). cbv zeta in IH.
    destruct (ticker_loop step st1 rest) as [st2 groups]. cbn [fst snd] in IH |- *.
    destruct IH as (Hi2 & Hm2 & Hg2 & Hns2 & Hsd2).
    cbn [List.concat]. rewrite List.length_app, Nat2Z.inj_add.
    split; [exact Hi2 | split; [exact Hm2 |]].
    split; [lia | split; [| lia]].
    intros Hf. rewrite (Hns2 Hf), (Hns1 Hf). lia.
Qed.

End RunMetrics.

Lemma dex_step_metrics (P : Platform) config (st : DexTicker P) clk :
  step_ok (dx_metrics st) (dx_metrics (fst (dex_step config st clk)))
    (snd (dex_step config st clk)).
Proof.
  unfold dex_step, step_ok.
  destruct (dex_generate config st clk) as [[msg eng'] r3].
  destruct (happens r3 (dex_p_drop config)) as [[] r4].
  - cbn. split; [reflexivity | left; repeat split].
  - destruct (happens r4 (dex_p_dup config)) as [[] r5]; cbn;
      (split; [reflexivity |]).
    + right; right; repeat split.
    + right; left; repeat split.
Qed.

Lemma oracle_step_metrics (P : Platform) config (st : OracleTicker P) clk :
  (should_publish P config (or_last_published_price st) (or_last_publish_time st)
     (price (oracle_tick_msg config st clk)) (now clk) = false /\
   or_metrics (fst (oracle_step config st clk)) = or_metrics st /\
   snd (oracle_step config st clk) = []) \/
  step_ok (or_metrics st) (or_metrics (fst (oracle_step config st clk)))
    (snd (oracle_step config st clk)).
Proof.
  unfold oracle_step, step_ok, oracle_tick_msg.
  destruct (oracle_generate config st clk) as [[msg eng'] r2]. cbn [fst].
  destruct (should_publish P config (or_last_published_price st)
              (or_last_publish_time st) (price msg) (now clk)); cbn [negb].
  2: { left. repeat split. }
  right.
  destruct (happens r2 (oracle_p_drop config)) as [[] r3].
  - cbn. split; [reflexivity | left; repeat split].
  - destruct (happens r3 (oracle_p_dup config)) as [[] r4]; cbn;
      (split; [reflexivity |]).
    + right; right; repeat split.
    + right; left; repeat split.
Qed.

(** [mark_published] is reached only with both fields set. *)
Lemma oracle_step_pub_inv (P : Platform) config (st : OracleTicker P) clk :
  pub_inv st -> pub_inv (fst (oracle_step config st clk)).
Proof.
  unfold oracle_step, pub_inv.
  destruct (oracle_generate config st clk) as [[msg eng'] r2].
  destruct (should_publish P config (or_last_published_price st)
              (or_last_publish_time st) (price msg) (now clk)); cbn [negb]; [| tauto].
  destruct (happens r2 (oracle_p_drop config)) as [[] r3];
    [| destruct (happens r3 (oracle_p_dup config)) as [[] r4]];
    cbn; intros _; split; discriminate.
Qed.

Lemma metrics_reset_inv : metrics_inv metrics_reset.
Proof. unfold metrics_inv. cbn. lia. Qed.

(** What one Oracle iteration does to the publication fields: leaves both
    as they were, or sets the price and the time of this iteration. *)
Lemma oracle_step_publish (P : Platform) config (st : OracleTicker P) clk :
  let st' := fst (oracle_step config st clk) in
  (or_last_published_price st' = or_last_published_price st /\
   or_last_publish_time st' = or_last_publish_time st) \/
  (exists p, or_last_published_price st' = Some p /\
             or_last_publish_time st' = Some (now clk)).
Proof.
  cbv zeta. unfold oracle_step.
  destruct (oracle_generate config st clk) as [[msg eng'] r2].
  destruct (should_publish P config (or_last_published_price st)
              (or_last_publish_time st) (price msg) (now clk)); cbn [negb];
    [| left; split; reflexivity].
  right. exists (price msg).
  destruct (happens r2 (oracle_p_drop config)) as [[] r3];
    [| destruct (happens r3 (oracle_p_dup config)) as [[] r4]];
    split; reflexivity.
Qed.

Lemma oracle_run_publish (P : Platform) config (clocks : list Clock) :
  forall st : OracleTicker P, pub_inv st ->
  let st' := fst (oracle_run config st clocks) in
  pub_inv st' /\
  (or_last_publish_time st' = or_last_publish_time st \/
   exists clk, In clk clocks /\ or_last_publish_time st' = Some (now clk)).
Proof.
  unfold oracle_run. induction clocks as [|clk rest IH]; intros st Hi; cbv zeta.
  - cbn. split; [exact Hi | left; reflexivity].
  - cbn [ticker_loop].
    pose proof (oracle_step_pub_inv P config st clk Hi) as Hi1.
    pose proof (oracle_step_publish P config st clk) as Hp. cbv zeta in Hp.
    destruct (oracle_step config st clk) as [st1 sent]. cbn [fst] in Hi1, Hp.
    specialize (IH st1 Hi1). cbv zeta in IH.
    destruct (ticker_loop (oracle_step config) st1 rest) as [st2 groups].
    cbn [fst] in IH |- *. destruct IH as [Hi2 Ht2]. split; [exact Hi2 |].
    destruct Ht2 as [Ht2 | (c & Hc & Ht2)].
    + rewrite Ht2. destruct Hp as [[_ Ht1] | (p & _ & Ht1)].
      * left. exact Ht1.
      * right. exists clk. split; [left; reflexivity | exact Ht1].
    + right. exists c. split; [right; exact Hc | exact Ht2].
Qed.

(** X12: along a run of either ticker started from reset counters (and
    fewer than 2^64 iterations), [price_ticks_generated] always equals
    [ws_frames_sent + ws_frames_dropped], [ws_frames_duplicated] never
    exceeds [ws_frames_sent], and [ws_frames_sent + ws_frames_duplicated]
    is the number of frames broadcast.  The DEX feed generates a tick at
    every iteration; the Oracle feed at most at every iteration. *)
Theorem run_metrics_consistent (P : Platform) :
  (forall config (st : DexTicker P) clocks,
     dx_metrics st = metrics_reset -> Z.of_nat (List.length clocks) < 2 ^ 64 ->
     let m := dx_metrics (fst (dex_run config st clocks)) in
     price_ticks_generated m = Z.of_nat (List.length clocks) /\
     price_ticks_generated m = ws_frames_sent m + ws_frames_dropped m /\
     ws_frames_duplicated m <= ws_frames_sent m /\
     ws_frames_sent m + ws_frames_duplicated m =
       Z.of_nat (List.length (List.concat (snd (dex_run config st clocks))))) /\
  (forall config (st : OracleTicker P) clocks,
     or_metrics st = metrics_reset -> Z.of_nat (List.length clocks) < 2 ^ 64 ->
     let m := or_metrics (fst (oracle_run config st clocks)) in
     price_ticks_generated m <= Z.of_nat (List.length clocks) /\
     price_ticks_generated m = ws_frames_sent m + ws_frames_dropped m /\
     ws_frames_duplicated m <= ws_frames_sent m /\
     ws_frames_sent m + ws_frames_duplicated m =
       Z.of_nat (List.length (List.concat (snd (oracle_run config st clocks))))).
Proof.
  split.
  - intros config st clocks Hm Hb. cbv zeta. unfold dex_run.
    assert (H0 : metrics_inv (dx_metrics st)) by (rewrite Hm; exact metrics_reset_inv).
    destruct (loop_metrics (DexTicker P) (dex_step config) (@dx_metrics P)
                (fun _ => True) false (fun _ _ _ => I)
                (fun st clk _ => or_intror (dex_step_metrics P config st clk))
                clocks st I H0 ltac:(rewrite Hm; cbn; lia))
      as (_ & (_ & _ & _ & Hus & Hg) & _ & Hn & Hsd).
    rewrite Hm in Hn, Hsd. cbn in Hn, Hsd.
    repeat split; [rewrite Hn; reflexivity | exact Hg | exact Hus | lia].
  - intros config st clocks Hm Hb. cbv zeta. unfold oracle_run.
    assert (H0 : metrics_inv (or_metrics st)) by (rewrite Hm; exact metrics_reset_inv).
    destruct (loop_metrics (OracleTicker P) (oracle_step config) (@or_metrics P)
                (fun _ => True) true (fun _ _ _ => I)
                (fun st clk _ =>
                   match oracle_step_metrics P config st clk with
                   | or_introl (conj _ H) => or_introl (conj eq_refl H)
                   | or_intror H => or_intror H
                   end)
                clocks st I H0 ltac:(rewrite Hm; cbn; lia))
      as (_ & (_ & _ & _ & Hus & Hg) & Hr & _ & Hsd).
    rewrite Hm in Hr, Hsd. cbn in Hr, Hsd.
    repeat split; [lia | exact Hg | exact Hus | lia].
Qed.

(** X12 on the demo runs: with [p_dup = 1] the DEX feed broadcasts every
    tick twice (six frames for three iterations); the Oracle feed after a
    publication of 3500 with a constant price and a 500 ms heartbeat
    generates nothing in the next 300 ms. *)
Lemma run_metrics_consistent_witness :
  (let m := dx_metrics (fst (dex_run (demo_dex_config 0 1) demo_dex_state demo_clocks)) in
   price_ticks_generated m = 3 /\
   price_ticks_generated m = ws_frames_sent m + ws_frames_dropped m /\
   ws_frames_duplicated m <= ws_frames_sent m /\
   ws_frames_sent m + ws_frames_duplicated m =
     Z.of_nat (List.length (List.concat
       (snd (dex_run (demo_dex_config 0 1) demo_dex_state demo_clocks))))) /\
  (let m := or_metrics (fst (oracle_run (demo_oracle_config 0) demo_oracle_published
                                 demo_clocks)) in
   price_ticks_generated m <= 3 /\
   price_ticks_generated m = ws_frames_sent m + ws_frames_dropped m /\
   ws_frames_duplicated m <= ws_frames_sent m /\
   ws_frames_sent m + ws_frames_duplicated m =
     Z.of_nat (List.length (List.concat
       (snd (oracle_run (demo_oracle_config 0) demo_oracle_published demo_clocks))))).
Proof.
  destruct (run_metrics_consistent toyP) as [D O]. split.
  - exact (D (demo_dex_config 0 1) demo_dex_state demo_clocks eq_refl
             ltac:(cbn; lia)).
  - exact (O (demo_oracle_config 0) demo_oracle_published demo_clocks eq_refl
             ltac:(cbn; lia)).
Defined.

(** X13: an Oracle run keeps [last_published_price_] and
    [last_publish_time_] both unset or both set, so once a price is
    published the state stays published; at the end the publish time is
    the initial one or the monotonic time of one of the run's iterations. *)
Theorem oracle_run_publication (P : Platform) config (st : OracleTicker P) clocks :
  pub_inv st ->
  let st' := fst (oracle_run config st clocks) in
  pub_inv st' /\
  (or_last_published_price st <> None -> or_last_published_price st' <> None) /\
  (or_last_publish_time st' = or_last_publish_time st \/
   exists clk, In clk clocks /\ or_last_publish_time st' = Some (now clk)).
Proof.
  intros Hi. cbv zeta.
  destruct (oracle_run_publish P config clocks st Hi) as [Hi' Ht]. cbv zeta in Hi', Ht.
  split; [exact Hi' | split; [| exact Ht]].
  intros Hp Hp'. apply Hp. apply (proj2 Hi).
  destruct Ht as [Ht | (c & _ & Ht)].
  - rewrite <- Ht. exact (proj1 Hi' Hp').
  - rewrite (proj1 Hi' Hp') in Ht. discriminate.
Qed.

(** X13 on the demo run from the fresh Oracle state: the first tick is
    published, at 100 ms of monotonic time. *)
Lemma oracle_run_publication_witness :
  let st' := fst (oracle_run (demo_oracle_config 0) demo_oracle_fresh demo_clocks) in
  pub_inv st' /\
  (or_last_published_price demo_oracle_fresh <> None -> or_last_published_price st' <> None) /\
  (or_last_publish_time st' = or_last_publish_time demo_oracle_fresh \/
   exists clk, In clk demo_clocks /\ or_last_publish_time st' = Some (now clk)).
Proof.
  apply (oracle_run_publication toyP (demo_oracle_config 0) demo_oracle_fresh demo_clocks).
  unfold pub_inv. cbn. split; reflexivity.
Defined.

Lemma should_publish_heartbeat_zero (P : Platform) config lpp lpt cur now :
  oracle_heartbeat_ms config = 0 -> (lpp = None <-> lpt = None) ->
  should_publish P config lpp lpt cur now = true.
Proof.
  intros Hh Hi. unfold should_publish.
  destruct lpp as [last|]; [| reflexivity].
  destruct (oracle_deviation_bps config <=? _); [reflexivity |].
  destruct lpt as [t|].
  - rewrite Hh. unfold wrap64.
    pose proof (Z.mod_pos_bound (elapsed_ms now t) (2 ^ 64) ltac:(lia)) as Hb.
    destruct (Z.leb_spec 0 ((elapsed_ms now t) mod 2 ^ 64)); [reflexivity | lia].
  - pose proof (proj2 Hi eq_refl). discriminate.
Qed.

(** X14: with [oracle_heartbeat_ms = 0] the publication gate never rejects
    a tick (given the publication fields are both set or both unset), so
    an Oracle run from reset counters generates a tick at every
    iteration, like the DEX feed. *)
Theorem oracle_heartbeat_zero_always_publishes (P : Platform) config :
  oracle_heartbeat_ms config = 0 ->
  (forall lpp lpt cur now, (lpp = None <-> lpt = None) ->
     should_publish P config lpp lpt cur now = true) /\
  (forall (st : OracleTicker P) clocks,
     pub_inv st -> or_metrics st = metrics_reset ->
     Z.of_nat (List.length clocks) < 2 ^ 64 ->
     price_ticks_generated (or_metrics (fst (oracle_run config st clocks))) =
       Z.of_nat (List.length clocks)).
Proof.
  intros Hh. split.
  - intros lpp lpt cur now Hi. exact (should_publish_heartbeat_zero P config lpp lpt cur now Hh Hi).
  - intros st clocks Hi Hm Hb. unfold oracle_run.
    assert (H0 : metrics_inv (or_metrics st)) by (rewrite Hm; exact metrics_reset_inv).
    assert (Hs : forall (s : OracleTicker P) clk, pub_inv s ->
              (false = true /\ or_metrics (fst (oracle_step config s clk)) = or_metrics s /\
               snd (oracle_step config s clk) = []) \/
              step_ok (or_metrics s) (or_metrics (fst (oracle_step config s clk)))
                (snd (oracle_step config s clk))).
    { intros s clk Hs. destruct (oracle_step_metrics P config s clk) as [(Hf & _) | H].
      - rewrite should_publish_heartbeat_zero in Hf by assumption. discriminate.
      - right. exact H. }
    destruct (loop_metrics (OracleTicker P) (oracle_step config) (@or_metrics P)
                pub_inv false (oracle_step_pub_inv P config) Hs
                clocks st Hi H0 ltac:(rewrite Hm; cbn; lia))
      as (_ & _ & _ & Hn & _).
    rewrite (Hn eq_refl), Hm. reflexivity.
Qed.

(** X14 on the demo: after a publication of 3500 with a constant price,
    a heartbeat of 0 makes each of the three iterations generate a tick
    (with a 500 ms heartbeat none of them does, see the X12 example). *)
Lemma oracle_heartbeat_zero_always_publishes_witness :
  let config := mkOracleConfig (mkRange 100 100) 50 0 (mkRange 0 0) 0 0 1000 in
  should_publish toyP config (Some 3500%float) (Some 0) 3500%float 0 = true /\
  price_ticks_generated (or_metrics (fst (oracle_run config demo_oracle_published demo_clocks)))
    = 3.
Proof.
  cbv zeta.
  destruct (oracle_heartbeat_zero_always_publishes toyP
              (mkOracleConfig (mkRange 100 100) 50 0 (mkRange 0 0) 0 0 1000) eq_refl) as [G R].
  split.
  - apply G. split; discriminate.
  - apply (R demo_oracle_published demo_clocks); [| reflexivity | cbn; lia].
    unfold pub_inv. cbn. split; discriminate.
Defined.
